(** * CXEMA golden-vector generator: a shallow embedding of
      [scripts/generate_test_vectors.py] and the properties of its
      simulation kernel, registry and don't-care mask synthesizer. *)

From Stdlib Require Import ZArith String Ascii List Lia DecimalString.
From stdpp Require Import gmap strings list fin_maps.

Local Open Scope Z_scope.

(** ** Python run-time values used by the script *)

(** The two exceptions the simulation code can raise on lists of integers
    and dictionaries keyed by strings, plus the one [open] raises. *)
Inductive exn : Type :=
  | KeyError (key : string)
  | IndexError (msg : string)
  | FileNotFoundError (path : string).

Inductive result (A : Type) : Type :=
  | Ok (a : A)
  | Raise (e : exn).
Arguments Ok {A} a.
Arguments Raise {A} e.

#[global] Instance result_ret : MRet result := λ A a, Ok a.
#[global] Instance result_bind : MBind result := λ A B f m,
  match m with
  | Ok a => f a
  | Raise e => Raise e
  end.

(** [l[i]] on a Python list: negative indices count from the end, anything
    outside [-len, len) raises [IndexError]. *)
Definition py_getitem {A} (l : list A) (i : Z) : result A :=
  let n := Z.of_nat (length l) in
  let k := if i <? 0 then i + n else i in
  match (if (0 <=? k) && (k <? n) then l !! Z.to_nat k else None) with
  | Some x => Ok x
  | None => Raise (IndexError "list index out of range")
  end.

(** [l[i] = v] on a Python list. *)
Definition py_setitem {A} (l : list A) (i : Z) (v : A) : result (list A) :=
  let n := Z.of_nat (length l) in
  let k := if i <? 0 then i + n else i in
  if (0 <=? k) && (k <? n)
  then Ok (<[Z.to_nat k := v]> l)
  else Raise (IndexError "list assignment index out of range").

(** [d[k]] on a Python dict. *)
Definition py_dict_getitem {V} (d : gmap string V) (k : string) : result V :=
  match d !! k with
  | Some v => Ok v
  | None => Raise (KeyError k)
  end.

(** Truth value of a Python int. *)
Definition truthy (z : Z) : bool := negb (z =? 0).

(** [str(z)] for a Python int. *)
Definition py_str_int (z : Z) : string := NilZero.string_of_int (Z.to_int z).

(** [repr(s)] as it shows in [str(KeyError(s))], for keys without quotes. *)
Definition exn_str (e : exn) : string :=
  match e with
  | KeyError k => "'" +:+ k +:+ "'"
  | IndexError msg => msg
  | FileNotFoundError p => "[Errno 2] No such file or directory: '" +:+ p +:+ "'"
  end.

(** ** Don't-care mask synthesis: [generate_test_vector] *)

(** The inner loop [for j in range(stability_ticks)] at transition [i];
    [n] is [len(values)]. *)
Definition mark_window (n i : nat) (stability_ticks : Z) (test : list ascii)
  : list ascii :=
  foldl (λ test j,
           if decide (i + j < n)%nat then <[(i + j)%nat := "x"%char]> test
           else test)
        test (seq 0 (Z.to_nat stability_ticks)).

(** The body of [for i in range(1, len(values))].  Both list reads are in
    range there, so the total lookup never takes its default. *)
Definition mark_transition (values : list Z) (stability_ticks : Z)
    (test : list ascii) (i : nat) : list ascii :=
  if decide (values !!! i ≠ values !!! (i - 1)%nat)
  then mark_window (length values) i stability_ticks test
  else test.

Definition generate_test_vector (values : list Z)
    (stability_ticks warmup_ticks : Z) : string :=
  let n := length values in
  let test := replicate n "?"%char in
  let test :=
    foldl (λ test i, <[i := "x"%char]> test) test
          (seq 0 (Z.to_nat (Z.min warmup_ticks (Z.of_nat n)))) in
  let test :=
    foldl (mark_transition values stability_ticks) test (seq 1 (n - 1)) in
  string_of_list_ascii test.

(** A tick [i] is a transition of [values] when [i >= 1], [i] is inside
    the waveform and the value differs from the one before. *)
Definition is_transition (values : list Z) (i : nat) : Prop :=
  (1 ≤ i < length values)%nat ∧ values !!! i ≠ values !!! (i - 1)%nat.

(** Tick [k] lies in the stability window opened by transition [i]. *)
Definition in_window (stability_ticks : Z) (i k : nat) : Prop :=
  (i ≤ k)%nat ∧ Z.of_nat k < Z.of_nat i + stability_ticks.

(** Boolean form of "some transition's window covers [k]". *)
Definition covered (values : list Z) (stability_ticks : Z) (k : nat) : bool :=
  existsb (λ i, bool_decide (values !!! i ≠ values !!! (i - 1)%nat)
                && existsb (λ j, (i + j =? k)%nat)
                           (seq 0 (Z.to_nat stability_ticks)))
          (seq 1 (length values - 1)).

(** ** Simulation functions

    Each takes the input waveforms (signal name to list of ints) and the
    tick count, and returns the output waveforms or the exception raised
    on the way.  Reads happen tick by tick in the order the source
    evaluates them, so the first fault is the one the source raises. *)

(** [inputs[name][t]] *)
Definition sample (inputs : gmap string (list Z)) (name : string) (t : Z)
  : result Z :=
  l ← py_dict_getitem inputs name; py_getitem l t.

(** [[f(t) for t in range(n)]] *)
Definition list_comp (n : nat) (f : nat → result Z) : result (list Z) :=
  mapM f (seq 0 n).

(** [for t in range(start, start + count): s = body(t, s)] *)
Fixpoint for_range {St : Type} (body : nat → St → result St)
    (start count : nat) (s : St) : result St :=
  match count with
  | O => Ok s
  | S count' => s' ← body start s; for_range body (S start) count' s'
  end.

(** [[1 - q[t] for t in range(n_ticks)]] *)
Definition complement (q : list Z) (n_ticks : nat) : result (list Z) :=
  list_comp n_ticks (λ t, v ← py_getitem q (Z.of_nat t); mret (1 - v)).

Definition sim_cx04 (inputs : gmap string (list Z)) (n_ticks : nat)
  : result (gmap string (list Z)) :=
  let inv name := list_comp n_ticks (λ t,
    v ← sample inputs name (Z.of_nat t); mret (1 - v)) in
  na ← inv "A"; nb ← inv "B"; nc ← inv "C"; nd ← inv "D";
  mret (list_to_map [("~A", na); ("~B", nb); ("~C", nc); ("~D", nd)]).

Definition sim_cx08 (inputs : gmap string (list Z)) (n_ticks : nat)
  : result (gmap string (list Z)) :=
  let reduce (op : Z → Z → Z) := list_comp n_ticks (λ t,
    a ← sample inputs "A" (Z.of_nat t); b ← sample inputs "B" (Z.of_nat t);
    c ← sample inputs "C" (Z.of_nat t); d ← sample inputs "D" (Z.of_nat t);
    mret (op (op (op a b) c) d)) in
  y0 ← reduce Z.land; y1 ← reduce Z.lor;
  mret (list_to_map [("Y0", y0); ("Y1", y1)]).

(** The shared shape of CX02 and CX00: three gates [1 - (x op y)]. *)
Definition three_gates (op : Z → Z → Z) (inputs : gmap string (list Z))
    (n_ticks : nat) : result (gmap string (list Z)) :=
  let gate x y := list_comp n_ticks (λ t,
    a ← sample inputs x (Z.of_nat t); b ← sample inputs y (Z.of_nat t);
    mret (1 - op a b)) in
  y0 ← gate "A" "B"; y1 ← gate "C" "D"; y2 ← gate "E" "F";
  mret (list_to_map [("Y0", y0); ("Y1", y1); ("Y2", y2)]).

Definition sim_cx02 := three_gates Z.lor.
Definition sim_cx00 := three_gates Z.land.

Definition sim_cxr01 (inputs : gmap string (list Z)) (n_ticks : nat)
  : result (gmap string (list Z)) :=
  let reset_period := 4 in
  r ← list_comp n_ticks (λ t,
         mret (if Z.of_nat t <? reset_period then 1 else 0));
  mret (list_to_map [("~R", r)]).

(** Next state of the RS latch. *)
Definition rs_next (s r state : Z) : Z :=
  if truthy s && negb (truthy r) then 1
  else if truthy r && negb (truthy s) then 0
  else state.

Definition sim_cx279 (inputs : gmap string (list Z)) (n_ticks : nat)
  : result (gmap string (list Z)) :=
  '(q, _) ← for_range (λ t '(q, state),
      s ← sample inputs "S" (Z.of_nat t);
      r ← sample inputs "R" (Z.of_nat t);
      let state := rs_next s r state in
      q ← py_setitem q (Z.of_nat t) state;
      mret (q, state))
    0 n_ticks (replicate n_ticks 0, 0);
  nq ← complement q n_ticks;
  mret (list_to_map [("Q", q); ("~Q", nq)]).

Definition sim_cx279e (inputs : gmap string (list Z)) (n_ticks : nat)
  : result (gmap string (list Z)) :=
  '(q, _) ← for_range (λ t '(q, state),
      e ← sample inputs "E" (Z.of_nat t);
      s ← sample inputs "S" (Z.of_nat t);
      r ← sample inputs "R" (Z.of_nat t);
      let state := if truthy e then rs_next s r state else state in
      q ← py_setitem q (Z.of_nat t) state;
      mret (q, state))
    0 n_ticks (replicate n_ticks 0, 0);
  nq ← complement q n_ticks;
  mret (list_to_map [("Q", q); ("~Q", nq)]).

Definition sim_cx556 (inputs : gmap string (list Z)) (n_ticks : nat)
  : result (gmap string (list Z)) :=
  cl1 ← list_comp n_ticks (λ t, mret (1 - (Z.of_nat t / 2) mod 2));
  cl2 ← list_comp n_ticks (λ t, mret (1 - (Z.of_nat t / 4) mod 2));
  mret (list_to_map [("CL1", cl1); ("CL2", cl2)]).

(** Loop state of [sim_cx74]: the list [q], [state] and [prev_clk]. *)
Definition cx74_tick (inputs : gmap string (list Z)) (t : nat)
    (st : list Z * Z * Z) : result (list Z * Z * Z) :=
  let '(q, state, prev_clk) := st in
  clk ← sample inputs "CLK" (Z.of_nat t);
  d ← sample inputs "D" (Z.of_nat t);
  let state := if truthy clk && negb (truthy prev_clk) then d else state in
  q ← py_setitem q (Z.of_nat t) state;
  mret (q, state, clk).

Definition sim_cx74 (inputs : gmap string (list Z)) (n_ticks : nat)
  : result (gmap string (list Z)) :=
  '(q, _, _) ← for_range (cx74_tick inputs) 0 n_ticks
                 (replicate n_ticks 0, 0, 0);
  nq ← complement q n_ticks;
  mret (list_to_map [("Q", q); ("~Q", nq)]).

Definition sim_cxf02 (inputs : gmap string (list Z)) (n_ticks : nat)
  : result (gmap string (list Z)) :=
  y ← for_range (λ t y,
      clk ← sample inputs "CLK" (Z.of_nat t);
      s ← sample inputs "S" (Z.of_nat t);
      if negb (truthy s) then py_setitem y (Z.of_nat t) clk
      else
        delayed_clk ← (if 2 <=? Z.of_nat t
                        then sample inputs "CLK" (Z.of_nat t - 2)
                        else mret 0);
        py_setitem y (Z.of_nat t) (Z.lxor clk delayed_clk))
    0 n_ticks (replicate n_ticks 0);
  mret (list_to_map [("Y", y)]).

Definition sim_cx139 (inputs : gmap string (list Z)) (n_ticks : nat)
  : result (gmap string (list Z)) :=
  '(y0, y1, y2, y3) ← for_range (λ t '(y0, y1, y2, y3),
      e ← sample inputs "E" (Z.of_nat t);
      a0 ← sample inputs "A0" (Z.of_nat t);
      a1 ← sample inputs "A1" (Z.of_nat t);
      if truthy e then
        let addr := a1 * 2 + a0 in
        if addr =? 0 then
          y0 ← py_setitem y0 (Z.of_nat t) 1; mret (y0, y1, y2, y3)
        else if addr =? 1 then
          y1 ← py_setitem y1 (Z.of_nat t) 1; mret (y0, y1, y2, y3)
        else if addr =? 2 then
          y2 ← py_setitem y2 (Z.of_nat t) 1; mret (y0, y1, y2, y3)
        else if addr =? 3 then
          y3 ← py_setitem y3 (Z.of_nat t) 1; mret (y0, y1, y2, y3)
        else mret (y0, y1, y2, y3)
      else mret (y0, y1, y2, y3))
    0 n_ticks (replicate n_ticks 0, replicate n_ticks 0,
               replicate n_ticks 0, replicate n_ticks 0);
  mret (list_to_map [("Y0", y0); ("Y1", y1); ("Y2", y2); ("Y3", y3)]).

Definition sim_cx83 (inputs : gmap string (list Z)) (n_ticks : nat)
  : result (gmap string (list Z)) :=
  '(s0, s1, co) ← for_range (λ t '(s0, s1, co),
      a1 ← sample inputs "A1" (Z.of_nat t);
      a0 ← sample inputs "A0" (Z.of_nat t);
      let a := a1 * 2 + a0 in
      b1 ← sample inputs "B1" (Z.of_nat t);
      b0 ← sample inputs "B0" (Z.of_nat t);
      let b := b1 * 2 + b0 in
      ci ← sample inputs "CI" (Z.of_nat t);
      let result := a + b + ci in
      s0 ← py_setitem s0 (Z.of_nat t) (Z.land result 1);
      s1 ← py_setitem s1 (Z.of_nat t) (Z.land (Z.shiftr result 1) 1);
      co ← py_setitem co (Z.of_nat t) (Z.land (Z.shiftr result 2) 1);
      mret (s0, s1, co))
    0 n_ticks (replicate n_ticks 0, replicate n_ticks 0,
               replicate n_ticks 0);
  mret (list_to_map [("S0", s0); ("S1", s1); ("CO", co)]).

Definition sim_cx93 (inputs : gmap string (list Z)) (n_ticks : nat)
  : result (gmap string (list Z)) :=
  '(y, _, _) ← for_range (λ t '(y, count, prev_clk),
      clk ← sample inputs "CLK" (Z.of_nat t);
      let count := if truthy clk && negb (truthy prev_clk)
                   then (count + 1) mod 4 else count in
      y ← py_setitem y (Z.of_nat t) (if 2 <=? count then 1 else 0);
      mret (y, count, clk))
    0 n_ticks (replicate n_ticks 0, 0, 0);
  mret (list_to_map [("Y", y)]).

Definition sim_cx153 (inputs : gmap string (list Z)) (n_ticks : nat)
  : result (gmap string (list Z)) :=
  y ← for_range (λ t y,
      s1 ← sample inputs "S1" (Z.of_nat t);
      s0 ← sample inputs "S0" (Z.of_nat t);
      let s := s1 * 2 + s0 in
      if s =? 0 then
        d ← sample inputs "D0" (Z.of_nat t); py_setitem y (Z.of_nat t) d
      else if s =? 1 then
        d ← sample inputs "D1" (Z.of_nat t); py_setitem y (Z.of_nat t) d
      else if s =? 2 then
        d ← sample inputs "D2" (Z.of_nat t); py_setitem y (Z.of_nat t) d
      else
        d ← sample inputs "D3" (Z.of_nat t); py_setitem y (Z.of_nat t) d)
    0 n_ticks (replicate n_ticks 0);
  mret (list_to_map [("Y", y)]).

Definition sim_cx161 (inputs : gmap string (list Z)) (n_ticks : nat)
  : result (gmap string (list Z)) :=
  '(q0, q1, q2, q3, _, _) ← for_range
    (λ t '(q0, q1, q2, q3, count, prev_clk),
      clk ← sample inputs "CLK" (Z.of_nat t);
      clr ← sample inputs "CLR" (Z.of_nat t);
      let count := if truthy clk && negb (truthy prev_clk)
                   then (if truthy clr then 0 else (count + 1) mod 16)
                   else count in
      q0 ← py_setitem q0 (Z.of_nat t) (Z.land count 1);
      q1 ← py_setitem q1 (Z.of_nat t) (Z.land (Z.shiftr count 1) 1);
      q2 ← py_setitem q2 (Z.of_nat t) (Z.land (Z.shiftr count 2) 1);
      q3 ← py_setitem q3 (Z.of_nat t) (Z.land (Z.shiftr count 3) 1);
      mret (q0, q1, q2, q3, count, clk))
    0 n_ticks (replicate n_ticks 0, replicate n_ticks 0,
               replicate n_ticks 0, replicate n_ticks 0, 0, 0);
  mret (list_to_map [("Q0", q0); ("Q1", q1); ("Q2", q2); ("Q3", q3)]).

(** [reg] always holds four entries, so it is kept as a 4-tuple. *)
Definition sim_cx195 (inputs : gmap string (list Z)) (n_ticks : nat)
  : result (gmap string (list Z)) :=
  '(q0, q1, q2, q3, _, _) ← for_range
    (λ t '(q0, q1, q2, q3, reg, prev_clk),
      clk ← sample inputs "CLK" (Z.of_nat t);
      din ← sample inputs "DIN" (Z.of_nat t);
      let reg : Z * Z * Z * Z :=
        if truthy clk && negb (truthy prev_clk)
        then (let '(r0, r1, r2, _) := reg in (din, r0, r1, r2))
        else reg in
      let '(r0, r1, r2, r3) := reg in
      q0 ← py_setitem q0 (Z.of_nat t) r0;
      q1 ← py_setitem q1 (Z.of_nat t) r1;
      q2 ← py_setitem q2 (Z.of_nat t) r2;
      q3 ← py_setitem q3 (Z.of_nat t) r3;
      mret (q0, q1, q2, q3, reg, clk))
    0 n_ticks (replicate n_ticks 0, replicate n_ticks 0,
               replicate n_ticks 0, replicate n_ticks 0, (0, 0, 0, 0), 0);
  mret (list_to_map [("Q0", q0); ("Q1", q1); ("Q2", q2); ("Q3", q3)]).

(** [addr] as computed at tick [t] of [sim_cx6116]. *)
Definition cx6116_addr (inputs : gmap string (list Z)) (t : nat) : result Z :=
  a2 ← sample inputs "A2" (Z.of_nat t);
  a1 ← sample inputs "A1" (Z.of_nat t);
  a0 ← sample inputs "A0" (Z.of_nat t);
  mret (a2 * 4 + a1 * 2 + a0).

(** Loop state of [sim_cx6116]: the array [memory] and the list [d_out]. *)
Definition cx6116_tick (inputs : gmap string (list Z)) (t : nat)
    (st : list Z * list Z) : result (list Z * list Z) :=
  let '(memory, d_out) := st in
  addr ← cx6116_addr inputs t;
  we ← sample inputs "WE" (Z.of_nat t);
  re ← sample inputs "RE" (Z.of_nat t);
  d_in ← sample inputs "D_in" (Z.of_nat t);
  memory ← (if truthy we && negb (truthy re)
             then py_setitem memory addr d_in else mret memory);
  d_out ← (if truthy re && negb (truthy we)
            then v ← py_getitem memory addr; py_setitem d_out (Z.of_nat t) v
            else mret d_out);
  mret (memory, d_out).

Definition cx6116_init (n_ticks : nat) : list Z * list Z :=
  (replicate 8 0, replicate n_ticks 0).

Definition sim_cx6116 (inputs : gmap string (list Z)) (n_ticks : nat)
  : result (gmap string (list Z)) :=
  '(_, d_out) ← for_range (cx6116_tick inputs) 0 n_ticks
                  (cx6116_init n_ticks);
  mret (list_to_map [("D_out", d_out)]).

Definition sim_cx181 (inputs : gmap string (list Z)) (n_ticks : nat)
  : result (gmap string (list Z)) :=
  '(y0, y1, z) ← for_range (λ t '(y0, y1, z),
      a1 ← sample inputs "A1" (Z.of_nat t);
      a0 ← sample inputs "A0" (Z.of_nat t);
      let a := a1 * 2 + a0 in
      b1 ← sample inputs "B1" (Z.of_nat t);
      b0 ← sample inputs "B0" (Z.of_nat t);
      let b := b1 * 2 + b0 in
      f1 ← sample inputs "F1" (Z.of_nat t);
      f0 ← sample inputs "F0" (Z.of_nat t);
      let f := f1 * 2 + f0 in
      let result :=
        if f =? 0 then Z.land a b
        else if f =? 1 then Z.lor a b
        else if f =? 2 then Z.land (Z.lnot a) 3
        else Z.lxor a b in
      y0 ← py_setitem y0 (Z.of_nat t) (Z.land result 1);
      y1 ← py_setitem y1 (Z.of_nat t) (Z.land (Z.shiftr result 1) 1);
      z ← py_setitem z (Z.of_nat t) (if result =? 0 then 1 else 0);
      mret (y0, y1, z))
    0 n_ticks (replicate n_ticks 0, replicate n_ticks 0,
               replicate n_ticks 0);
  mret (list_to_map [("Y0", y0); ("Y1", y1); ("Z", z)]).

(** ** Level configuration: [LEVEL_CONFIG]

    A missing ['stability_ticks'] or ['warmup_ticks'] key is [None]; the
    defaults are applied where [process_level] reads them.  The
    ['bidirectional'] entry of CX6116 is read nowhere and is left out. *)

Record config : Type := {
  cfg_sim : gmap string (list Z) → nat → result (gmap string (list Z));
  cfg_inputs : list string;
  cfg_outputs : list string;
  cfg_pin_map : gmap string Z;
  cfg_stability_ticks : option Z;
  cfg_warmup_ticks : option Z;
}.

Definition mk_config sim inputs outputs (pin_map : list (string * Z))
    stability warmup : config :=
  {| cfg_sim := sim; cfg_inputs := inputs; cfg_outputs := outputs;
     cfg_pin_map := list_to_map pin_map;
     cfg_stability_ticks := stability; cfg_warmup_ticks := warmup |}.

Definition LEVEL_CONFIG : gmap string config := list_to_map [
  ("CX04", mk_config sim_cx04 ["A"; "B"; "C"; "D"] ["~A"; "~B"; "~C"; "~D"]
     [("A", 1); ("B", 2); ("C", 3); ("D", 4);
      ("~A", 7); ("~B", 8); ("~C", 9); ("~D", 10)] None None);
  ("CX08", mk_config sim_cx08 ["A"; "B"; "C"; "D"] ["Y0"; "Y1"]
     [("A", 1); ("B", 2); ("C", 3); ("D", 4); ("Y0", 7); ("Y1", 8)]
     None None);
  ("CX02", mk_config sim_cx02 ["A"; "B"; "C"; "D"; "E"; "F"]
     ["Y0"; "Y1"; "Y2"]
     [("A", 1); ("B", 2); ("C", 3); ("D", 4); ("E", 9); ("F", 10);
      ("Y0", 7); ("Y1", 8); ("Y2", 11)] None None);
  ("CX00", mk_config sim_cx00 ["A"; "B"; "C"; "D"; "E"; "F"]
     ["Y0"; "Y1"; "Y2"]
     [("A", 1); ("B", 2); ("C", 3); ("D", 4); ("E", 9); ("F", 10);
      ("Y0", 7); ("Y1", 8); ("Y2", 11)] None None);
  ("CXR01", mk_config sim_cxr01 [] ["~R"] [("~R", 7)] None None);
  ("CX279", mk_config sim_cx279 ["S"; "R"] ["Q"; "~Q"]
     [("S", 1); ("R", 2); ("Q", 7); ("~Q", 8)] (Some 2) (Some 2));
  ("CX279E", mk_config sim_cx279e ["S"; "R"; "E"] ["Q"; "~Q"]
     [("S", 1); ("R", 2); ("E", 3); ("Q", 7); ("~Q", 8)]
     (Some 2) (Some 2));
  ("CX556", mk_config sim_cx556 [] ["CL1"; "CL2"]
     [("CL1", 4); ("CL2", 8)] (Some 0) None);
  ("CX74", mk_config sim_cx74 ["D"; "CLK"] ["Q"; "~Q"]
     [("D", 1); ("CLK", 2); ("Q", 7); ("~Q", 8)] (Some 3) None);
  ("CXF02", mk_config sim_cxf02 ["CLK"; "S"] ["Y"]
     [("CLK", 1); ("S", 2); ("Y", 7)] (Some 0) None);
  ("CX139", mk_config sim_cx139 ["A0"; "A1"; "E"] ["Y0"; "Y1"; "Y2"; "Y3"]
     [("A0", 1); ("A1", 2); ("E", 3);
      ("Y0", 7); ("Y1", 8); ("Y2", 9); ("Y3", 10)] (Some 2) None);
  ("CX83", mk_config sim_cx83 ["A0"; "A1"; "B0"; "B1"; "CI"]
     ["S0"; "S1"; "CO"]
     [("A0", 1); ("A1", 2); ("B0", 3); ("B1", 4); ("CI", 5);
      ("S0", 7); ("S1", 8); ("CO", 9)] (Some 4) None);
  ("CX93", mk_config sim_cx93 ["CLK"] ["Y"] [("CLK", 1); ("Y", 7)]
     (Some 2) None);
  ("CX153", mk_config sim_cx153 ["D0"; "D1"; "D2"; "D3"; "S0"; "S1"] ["Y"]
     [("D0", 1); ("D1", 2); ("D2", 3); ("D3", 4); ("S0", 6); ("S1", 7);
      ("Y", 8)] (Some 2) None);
  ("CX161", mk_config sim_cx161 ["CLK"; "CLR"] ["Q0"; "Q1"; "Q2"; "Q3"]
     [("CLK", 1); ("CLR", 2);
      ("Q0", 7); ("Q1", 8); ("Q2", 9); ("Q3", 10)] (Some 2) None);
  ("CX195", mk_config sim_cx195 ["DIN"; "CLK"] ["Q0"; "Q1"; "Q2"; "Q3"]
     [("DIN", 1); ("CLK", 2);
      ("Q0", 7); ("Q1", 8); ("Q2", 9); ("Q3", 10)] (Some 2) None);
  ("CX6116", mk_config sim_cx6116 ["A0"; "A1"; "A2"; "WE"; "RE"; "D_in"]
     ["D_out"]
     [("A0", 1); ("A1", 2); ("A2", 3); ("WE", 4); ("RE", 5);
      ("D_in", 7); ("D_out", 7)] (Some 2) None);
  ("CX181", mk_config sim_cx181 ["A0"; "A1"; "B0"; "B1"; "F0"; "F1"]
     ["Y0"; "Y1"; "Z"]
     [("A0", 1); ("A1", 2); ("B0", 3); ("B1", 4); ("F0", 6); ("F1", 7);
      ("Y0", 8); ("Y1", 9); ("Z", 10)] (Some 2) None)
].

(** ** Level documents and the outside world

    A level file holds the parsed JSON document; only the keys the script
    reads are kept, with the [.get] defaults already applied (a missing
    ['name'], ['values'] or ['test'] is the empty string, a missing
    ['is_input'] is [true], missing ['pins'] or ['waveforms'] are empty). *)

Record waveform : Type := {
  wf_pin_index : Z;
  wf_is_input : bool;
  wf_values : string;
  wf_test : string;
}.

Record level : Type := {
  level_name : string;
  level_pins : list string;
  level_waveforms : list waveform;
}.

(** What a run shows: lines on standard output, and the traceback that
    [traceback.print_exc] writes for the exception being handled. *)
Inductive event : Type :=
  | Print (line : string)
  | PrintExc (e : exn).

(** The level files by path, and everything printed so far. *)
Record world : Type := {
  files : gmap string level;
  printed : list event;
}.

Definition emit (evs : list event) (w : world) : world :=
  {| files := files w; printed := printed w ++ evs |}.

Definition write_file (path : string) (data : level) (w : world) : world :=
  {| files := <[path := data]> (files w); printed := printed w |}.

(** [level_path.name]: the last component of the path. *)
Fixpoint path_name_from (acc s : string) : string :=
  match s with
  | EmptyString => acc
  | String c s' =>
      if Ascii.eqb c "/" then path_name_from "" s'
      else path_name_from (acc +:+ String c "") s'
  end.
Definition path_name (level_path : string) : string :=
  path_name_from "" level_path.

(** [s[:50]] followed by ['...'] when [s] is longer, as the report shows it. *)
Definition clip (s : string) : string :=
  substring 0 50 s +:+ (if (50 <? String.length s)%nat then "..." else "").

(** [[1 if c == '1' else 0 for c in values_str]] *)
Definition parse_values (values_str : string) : list Z :=
  (λ c, if Ascii.eqb c "1" then 1 else 0) <$> list_ascii_of_string values_str.

(** [''.join(str(v) for v in new_values)] *)
Definition render_values (new_values : list Z) : string :=
  foldr (λ v acc, py_str_int v +:+ acc) "" new_values.

(** The reverse maps [idx_to_input] and [idx_to_output]. *)
Definition index_signals (pin_map : gmap string Z) (signals : list string)
  : gmap Z string :=
  foldl (λ m sig, match pin_map !! sig with
                  | Some idx => <[idx := sig]> m
                  | None => m
                  end) ∅ signals.

(** The signal name of a waveform: the configured name of its pin, or,
    when that is missing or empty, [pins[pin_idx] if pin_idx < len(pins)
    else None]. *)
Definition signal_name (idx_to_name : gmap Z string) (pins : list string)
    (pin_idx : Z) : result (option string) :=
  match idx_to_name !! pin_idx with
  | Some (String c s) => Ok (Some (String c s))
  | _ => if pin_idx <? Z.of_nat (length pins)
         then nm ← py_getitem pins pin_idx; mret (Some nm)
         else Ok None
  end.

(** One iteration of the loop that collects the input waveforms; the
    state is [(inputs, n_ticks)]. *)
Definition collect_input (idx_to_input : gmap Z string) (pins : list string)
    (st : gmap string (list Z) * nat) (wf : waveform)
  : result (gmap string (list Z) * nat) :=
  let '(inputs, n_ticks) := st in
  if negb (wf_is_input wf) then Ok st
  else
    sig_name ← signal_name idx_to_input pins (wf_pin_index wf);
    match sig_name with
    | None => Ok st
    | Some nm =>
        if bool_decide (nm = "vcc") || bool_decide (nm = "nc") then Ok st
        else
          let values_str := wf_values wf in
          Ok (<[nm := parse_values values_str]> inputs,
              String.length values_str)
    end.

Fixpoint collect_inputs (idx_to_input : gmap Z string) (pins : list string)
    (st : gmap string (list Z) * nat) (wfs : list waveform)
  : result (gmap string (list Z) * nat) :=
  match wfs with
  | [] => Ok st
  | wf :: wfs' =>
      st' ← collect_input idx_to_input pins st wf;
      collect_inputs idx_to_input pins st' wfs'
  end.

(** One iteration of the loop that updates the output waveforms: the
    lines it prints, the waveform as it leaves it, and whether it set
    [modified]. *)
Definition update_output (level_path : string)
    (idx_to_output : gmap Z string) (pins : list string)
    (outputs : gmap string (list Z)) (stability_ticks warmup_ticks : Z)
    (wf : waveform) : result (list event * waveform * bool) :=
  if wf_is_input wf then Ok ([], wf, false)
  else
    let pin_idx := wf_pin_index wf in
    out_name ← signal_name idx_to_output pins pin_idx;
    match out_name with
    | None => Ok ([], wf, false)
    | Some nm =>
        match outputs !! nm with
        | None => Ok ([], wf, false)
        | Some new_values =>
            let new_values_str := render_values new_values in
            let new_test :=
              generate_test_vector new_values stability_ticks warmup_ticks in
            let old_values := wf_values wf in
            let old_test := wf_test wf in
            if bool_decide (old_values ≠ new_values_str)
               || bool_decide (old_test ≠ new_test)
            then Ok ([Print ("  " +:+ path_name level_path +:+ ": " +:+ nm
                             +:+ " (pin " +:+ py_str_int pin_idx +:+ ")");
                      Print ("    old: " +:+ clip old_values);
                      Print ("    new: " +:+ clip new_values_str);
                      Print ("    tst: " +:+ clip new_test)],
                     {| wf_pin_index := pin_idx; wf_is_input := false;
                        wf_values := new_values_str; wf_test := new_test |},
                     true)
            else Ok ([], wf, false)
        end
    end.

(** The whole output loop.  What was printed before an exception stays
    printed, so the lines are returned beside the result. *)
Fixpoint update_outputs (level_path : string)
    (idx_to_output : gmap Z string) (pins : list string)
    (outputs : gmap string (list Z)) (stability_ticks warmup_ticks : Z)
    (wfs : list waveform) (modified : bool)
  : list event * result (list waveform * bool) :=
  match wfs with
  | [] => ([], Ok ([], modified))
  | wf :: wfs' =>
      match update_output level_path idx_to_output pins outputs
              stability_ticks warmup_ticks wf with
      | Raise e => ([], Raise e)
      | Ok (evs, wf', changed) =>
          let '(evs', r) :=
            update_outputs level_path idx_to_output pins outputs
              stability_ticks warmup_ticks wfs' (modified || changed) in
          (evs ++ evs',
           '(done, modified') ← r; mret (wf' :: done, modified'))
      end
  end.

(** [process_level]: the new world, and the value returned or the
    exception that leaves the function. *)
Definition process_level (level_path : string) (dry_run : bool) (w : world)
  : world * result bool :=
  match files w !! level_path with
  | None => (w, Raise (FileNotFoundError level_path))
  | Some data =>
      match LEVEL_CONFIG !! level_name data with
      | None =>
          (emit [Print ("  " +:+ path_name level_path +:+ ": No config for "
                        +:+ level_name data +:+ ", skipping")] w,
           Ok false)
      | Some config =>
          let pins := level_pins data in
          let pin_map := cfg_pin_map config in
          let idx_to_input := index_signals pin_map (cfg_inputs config) in
          match collect_inputs idx_to_input pins (∅, 64%nat)
                  (level_waveforms data) with
          | Raise e => (w, Raise e)
          | Ok (inputs, n_ticks) =>
              match cfg_sim config inputs n_ticks with
              | Raise e =>
                  (emit [Print ("  " +:+ path_name level_path
                                +:+ ": Simulation error: " +:+ exn_str e);
                         PrintExc e] w,
                   Ok false)
              | Ok outputs =>
                  let idx_to_output :=
                    index_signals pin_map (cfg_outputs config) in
                  let stability_ticks :=
                    default 1 (cfg_stability_ticks config) in
                  let warmup_ticks := default 0 (cfg_warmup_ticks config) in
                  match update_outputs level_path idx_to_output pins outputs
                          stability_ticks warmup_ticks
                          (level_waveforms data) false with
                  | (evs, Raise e) => (emit evs w, Raise e)
                  | (evs, Ok (wfs, modified)) =>
                      let w := emit evs w in
                      let data' :=
                        {| level_name := level_name data;
                           level_pins := pins;
                           level_waveforms := wfs |} in
                      (if modified && negb dry_run
                       then write_file level_path data' w else w,
                       Ok modified)
                  end
              end
          end
      end
  end.

(** The loop of [main] over the level files, threading [modified_count]. *)
Fixpoint process_all (level_files : list string) (dry_run : bool)
    (modified_count : Z) (w : world) : world * result Z :=
  match level_files with
  | [] => (w, Ok modified_count)
  | level_path :: rest =>
      match process_level level_path dry_run w with
      | (w', Raise e) => (w', Raise e)
      | (w', Ok modified) =>
          process_all rest dry_run
            (if modified then modified_count + 1 else modified_count) w'
      end
  end.

Definition newline : string := String (ascii_of_nat 10) "".

(** [main], from the list of level files on: command line parsing and the
    directory listing that yield [level_files] and [dry_run] are outside. *)
Definition main (level_files : list string) (dry_run : bool) (w : world)
  : world * result Z :=
  match level_files with
  | [] => (emit [Print "No level files found!"] w, Ok 1)
  | _ =>
      let w := emit [Print ("Processing "
                            +:+ py_str_int (Z.of_nat (length level_files))
                            +:+ " level files...")] w in
      let w := if dry_run
               then emit [Print "(dry run - no files will be modified)"] w
               else w in
      let w := emit [Print ""] w in
      match process_all level_files dry_run 0 w with
      | (w, Raise e) => (w, Raise e)
      | (w, Ok modified_count) =>
          (emit [Print (newline
                        +:+ (if dry_run then "Would modify" else "Modified")
                        +:+ " " +:+ py_str_int modified_count +:+ " files.")]
                w,
           Ok 0)
      end
  end.

(** ** Reference behaviour, in the specification's words

    These follow the specification, not the code; the theorems below
    compare the simulation functions with them. *)

(** A sample is boolean. *)
Definition is_bit (v : Z) : Prop := v = 0 ∨ v = 1.

(** Rising edge at tick [t]: the clock sample is set and the sample of the
    tick before (0 before the first tick) is not. *)
Definition rising_edge (clk : list Z) (t : nat) : bool :=
  truthy (clk !!! t)
  && negb (truthy (match t with O => 0 | S t' => clk !!! t' end)).

(** Content of the edge-triggered register once tick [t] is done: the data
    sample of tick [t] on a rising edge, else what it held before (0 at
    the start). *)
Fixpoint register_q (clk d : list Z) (t : nat) : Z :=
  match t with
  | O => if rising_edge clk 0 then d !!! 0%nat else 0
  | S t' => if rising_edge clk (S t') then d !!! S t' else register_q clk d t'
  end.

Section memory_reference.
Variables a2 a1 a0 we re d_in : list Z.

(** The 3-bit address selected at tick [t]. *)
Definition address_at (t : nat) : Z :=
  a2 !!! t * 4 + a1 !!! t * 2 + a0 !!! t.

(** Write-Enable asserted and Read-Enable not. *)
Definition write_tick (t : nat) : bool :=
  (we !!! t =? 1) && (re !!! t =? 0).

(** Read-Enable asserted and Write-Enable not. *)
Definition read_tick (t : nat) : bool :=
  (re !!! t =? 1) && (we !!! t =? 0).

(** Content of cell [a] before tick [t]: the data of the latest write
    tick to [a] before [t], and 0 when there is none. *)
Fixpoint cell_content (a : Z) (t : nat) : Z :=
  match t with
  | O => 0
  | S t' => if write_tick t' && (address_at t' =? a) then d_in !!! t'
            else cell_content a t'
  end.
End memory_reference.

(** The six input waveforms of a CX6116 run: present under their names,
    at least [n] samples long, and boolean. *)
Definition cx6116_waves (inputs : gmap string (list Z)) (n : nat)
    (a2 a1 a0 we re d_in : list Z) : Prop :=
  inputs !! "A2" = Some a2 ∧ inputs !! "A1" = Some a1
  ∧ inputs !! "A0" = Some a0 ∧ inputs !! "WE" = Some we
  ∧ inputs !! "RE" = Some re ∧ inputs !! "D_in" = Some d_in
  ∧ Forall (λ l, (n ≤ length l)%nat ∧ Forall is_bit l)
           [a2; a1; a0; we; re; d_in].

(** ** Example runs *)

(** A memory run: tick 0 writes 1 to address 5, tick 1 reads address 5,
    tick 2 reads address 2, which was never written. *)
Definition ram_example : gmap string (list Z) := list_to_map [
  ("A2", [1; 1; 0]); ("A1", [0; 0; 1]); ("A0", [1; 1; 0]);
  ("WE", [1; 0; 0]); ("RE", [0; 1; 1]); ("D_in", [1; 0; 0])
].

Definition input_wave (pin : Z) (values_str : string) : waveform :=
  {| wf_pin_index := pin; wf_is_input := true;
     wf_values := values_str; wf_test := "" |}.

Definition output_wave (pin : Z) (values_str test_str : string) : waveform :=
  {| wf_pin_index := pin; wf_is_input := false;
     wf_values := values_str; wf_test := test_str |}.

Definition world_of (path : string) (data : level) : world :=
  {| files := {[ path := data ]}; printed := [] |}.

(** A level naming a component the registry does not have. *)
Definition unknown_level : level :=
  {| level_name := "CX99"; level_pins := []; level_waveforms := [] |}.

(** A CX04 level whose waveform for A is missing. *)
Definition missing_input_level : level :=
  {| level_name := "CX04"; level_pins := [];
     level_waveforms := [input_wave 2 "01"; input_wave 3 "01";
                         input_wave 4 "01"; output_wave 7 "" ""] |}.

(** A CX74 level whose D waveform (1 tick) is shorter than the CLK
    waveform (2 ticks) that comes last. *)
Definition short_wave_level : level :=
  {| level_name := "CX74"; level_pins := [];
     level_waveforms := [input_wave 1 "0"; input_wave 2 "01";
                         output_wave 7 "" ""] |}.

(** A CX04 level whose A waveform (2 ticks) is longer than the others
    (1 tick). *)
Definition long_wave_level : level :=
  {| level_name := "CX04"; level_pins := [];
     level_waveforms := [input_wave 1 "01"; input_wave 2 "0";
                         input_wave 3 "0"; input_wave 4 "0";
                         output_wave 7 "" ""] |}.

(** ** Input collection, in the words of the corrected specification *)

(** The name under which the input loop files a waveform, when it keeps
    it: an input waveform whose signal name is found and is neither
    ['vcc'] nor ['nc']. *)
Definition collected_name (idx_to_input : gmap Z string) (pins : list string)
    (wf : waveform) : option string :=
  if wf_is_input wf then
    match signal_name idx_to_input pins (wf_pin_index wf) with
    | Ok (Some nm) =>
        if bool_decide (nm = "vcc") || bool_decide (nm = "nc") then None
        else Some nm
    | _ => None
    end
  else None.

(** The tick count of a run: the length of the last waveform the input
    loop keeps, and 64 when it keeps none. *)
Definition tick_count (idx_to_input : gmap Z string) (pins : list string)
    (wfs : list waveform) : nat :=
  match last (List.filter
                (λ wf, bool_decide (is_Some (collected_name idx_to_input
                                               pins wf))) wfs) with
  | Some wf => String.length (wf_values wf)
  | None => 64%nat
  end.

(** The samples a run has for the signal [nm]: all those of the last
    waveform kept under that name. *)
Definition collected_samples (idx_to_input : gmap Z string)
    (pins : list string) (wfs : list waveform) (nm : string)
  : option (list Z) :=
  (λ wf, parse_values (wf_values wf))
  <$> last (List.filter
              (λ wf, bool_decide (collected_name idx_to_input pins wf
                                  = Some nm)) wfs).

(** *** Generic facts about marking loops *)

Section marking.
Variable g : nat → list ascii → list ascii.
Variable c : nat → nat → bool.
Hypothesis g_length : ∀ i t, length (g i t) = length t.
Hypothesis g_lookup : ∀ i t k, (k < length t)%nat →
  g i t !! k = if c i k then Some "x"%char else t !! k.

Lemma foldl_mark_length (ixs : list nat) (t : list ascii) :
  length (foldl (λ t i, g i t) t ixs) = length t.
Proof.
  revert t; induction ixs as [|i ixs IH]; intros t; simpl; [done|].
  by rewrite IH, g_length.
Qed.

Lemma foldl_mark_lookup (ixs : list nat) (t : list ascii) (k : nat) :
  (k < length t)%nat →
  foldl (λ t i, g i t) t ixs !! k
  = if existsb (λ i, c i k) ixs then Some "x"%char else t !! k.
Proof.
  revert t; induction ixs as [|i ixs IH]; intros t Hk; simpl; [done|].
  rewrite IH by (by rewrite g_length).
  rewrite g_lookup by done.
  destruct (c i k); simpl; [by destruct (existsb _ ixs)|done].
Qed.
End marking.

Lemma existsb_seq_eqb (k m : nat) :
  existsb (λ i, (i =? k)%nat) (seq 0 m) = bool_decide (k < m)%nat.
Proof.
  induction m as [|m IH]; [done|].
  rewrite seq_S, existsb_app, IH. simpl.
  destruct (Nat.eqb_spec m k); repeat case_bool_decide; simpl; try done; lia.
Qed.

Lemma existsb_seq_shift (i k m : nat) :
  existsb (λ j, (i + j =? k)%nat) (seq 0 m)
  = bool_decide (i ≤ k < i + m)%nat.
Proof.
  induction m as [|m IH]; [simpl; case_bool_decide; [lia|done]|].
  rewrite seq_S, existsb_app, IH. simpl.
  destruct (Nat.eqb_spec (i + m) k); repeat case_bool_decide; simpl;
    try done; lia.
Qed.

Lemma string_get_of_list (l : list ascii) (k : nat) :
  String.get k (string_of_list_ascii l) = l !! k.
Proof.
  revert k; induction l as [|a l IH]; intros [|k]; simpl; auto.
Qed.

Lemma string_length_of_list (l : list ascii) :
  String.length (string_of_list_ascii l) = length l.
Proof. induction l; simpl; auto. Qed.

Lemma mark_window_length n i st t : length (mark_window n i st t) = length t.
Proof.
  unfold mark_window.
  apply (foldl_mark_length
           (λ j t, if decide (i + j < n)%nat
                   then <[(i + j)%nat := "x"%char]> t else t)).
  intros j t'. case_decide; [apply length_insert|done].
Qed.

Lemma mark_window_lookup n i st t k :
  length t = n → (k < n)%nat →
  mark_window n i st t !! k
  = if bool_decide (i ≤ k < i + Z.to_nat st)%nat then Some "x"%char
    else t !! k.
Proof.
  intros Hn Hk. unfold mark_window.
  set (g := λ (j : nat) (t : list ascii),
              if decide (i + j < n)%nat
              then <[(i + j)%nat := "x"%char]> t else t).
  assert (Hlen : ∀ j t', length (g j t') = length t').
  { intros j t'. unfold g. case_decide; [apply length_insert|done]. }
  assert (Hinv : ∀ (js : list nat) t', length t' = n →
            foldl (λ t j, g j t) t' js !! k
            = if existsb (λ j, (i + j =? k)%nat) js then Some "x"%char
              else t' !! k).
  { induction js as [|j js IH]; intros t' Ht'; simpl; [done|].
    rewrite IH by (by rewrite Hlen). unfold g.
    destruct (Nat.eqb_spec (i + j) k) as [->|Hne]; simpl.
    - rewrite decide_True by done.
      rewrite list_lookup_insert_eq by lia. by destruct (existsb _ js).
    - case_decide; [by rewrite list_lookup_insert_ne|done]. }
  rewrite (Hinv _ t Hn). by rewrite existsb_seq_shift.
Qed.

Lemma mark_transition_length values st t i :
  length (mark_transition values st t i) = length t.
Proof.
  unfold mark_transition. case_decide; [apply mark_window_length|done].
Qed.

(** The list built by the three loops, before [''.join]. *)
Lemma generate_test_vector_get values st w k :
  (k < length values)%nat →
  String.get k (generate_test_vector values st w)
  = Some (if bool_decide (Z.of_nat k < w) || covered values st k
          then "x"%char else "?"%char).
Proof.
  intros Hk. unfold generate_test_vector. rewrite string_get_of_list.
  set (n := length values).
  set (t1 := foldl _ (replicate n _) _).
  assert (Hlen1 : length t1 = n).
  { unfold t1.
    rewrite (foldl_mark_length (λ i t, <[i := "x"%char]> t)).
    - apply length_replicate.
    - intros; apply length_insert. }
  assert (Ht1 : t1 !! k
            = Some (if bool_decide (Z.of_nat k < w) then "x"%char
                    else "?"%char)).
  { unfold t1.
    rewrite (foldl_mark_lookup (λ i t, <[i := "x"%char]> t)
                               (λ i k, (i =? k)%nat)).
    - rewrite existsb_seq_eqb.
      rewrite lookup_replicate_2 by done.
      repeat case_bool_decide; try done; lia.
    - intros; apply length_insert.
    - intros i t k' Hk'. destruct (Nat.eqb_spec i k') as [->|Hne].
      + by rewrite list_lookup_insert_eq.
      + by rewrite list_lookup_insert_ne.
    - by rewrite length_replicate. }
  assert (Hinv : ∀ (ixs : list nat) t, length t = n →
            foldl (mark_transition values st) t ixs !! k
            = if existsb (λ i, bool_decide (values !!! i
                                            ≠ values !!! (i - 1)%nat)
                               && existsb (λ j, (i + j =? k)%nat)
                                          (seq 0 (Z.to_nat st))) ixs
              then Some "x"%char else t !! k).
  { induction ixs as [|i ixs IH]; intros t Ht; simpl; [done|].
    rewrite IH by (by rewrite mark_transition_length).
    unfold mark_transition.
    destruct (decide (values !!! i ≠ values !!! (i - 1)%nat)) as [Hd|Hd].
    - rewrite bool_decide_true by done. simpl.
      rewrite mark_window_lookup by done.
      rewrite existsb_seq_shift.
      by destruct (bool_decide (i ≤ k < i + Z.to_nat st)%nat), (existsb _ ixs).
    - rewrite bool_decide_false by done. done. }
  rewrite (Hinv _ t1 Hlen1), Ht1. unfold covered. fold n.
  by destruct (existsb _ (seq 1 (n - 1))), (bool_decide (Z.of_nat k < w)).
Qed.

Lemma covered_spec values st k :
  covered values st k = true ↔
  ∃ i, is_transition values i ∧ in_window st i k.
Proof.
  unfold covered, is_transition, in_window. rewrite existsb_exists. split.
  - intros (i & Hin & Hc). apply in_seq in Hin.
    apply andb_true_iff in Hc as [Hd Hw].
    apply bool_decide_eq_true in Hd.
    rewrite existsb_seq_shift in Hw. apply bool_decide_eq_true in Hw.
    exists i. repeat split; try done; lia.
  - intros (i & [Hi Hd] & [Hle Hlt]). exists i. split.
    + apply in_seq. lia.
    + apply andb_true_iff. split; [by apply bool_decide_eq_true|].
      rewrite existsb_seq_shift. apply bool_decide_eq_true. lia.
Qed.

Lemma foldl_mark_transition_length values st ixs t :
  length (foldl (mark_transition values st) t ixs) = length t.
Proof.
  revert t; induction ixs as [|i ixs IH]; intros t; simpl; [done|].
  by rewrite IH, mark_transition_length.
Qed.

Lemma generate_test_vector_length values st w :
  String.length (generate_test_vector values st w) = length values.
Proof.
  unfold generate_test_vector.
  rewrite string_length_of_list, foldl_mark_transition_length.
  rewrite (foldl_mark_length (λ i t, <[i := "x"%char]> t)).
  - apply length_replicate.
  - intros; apply length_insert.
Qed.

(** ** The embedding on the specification's scenarios *)

Example oscillator_scenario :
  sim_cx556 ∅ 8
  = Ok (list_to_map [("CL1", [1; 1; 0; 0; 1; 1; 0; 0]);
                     ("CL2", [1; 1; 1; 1; 0; 0; 0; 0])]).
Proof. reflexivity. Qed.

Example divider_scenario :
  sim_cx93 {[ "CLK" := [0; 1; 0; 1; 0; 1; 0; 1; 0; 1; 0; 1; 0; 1; 0; 1] ]} 16
  = Ok {[ "Y" := [0; 0; 0; 1; 1; 1; 1; 0; 0; 0; 0; 1; 1; 1; 1; 0] ]}.
Proof. reflexivity. Qed.

Example adder_scenario :
  sim_cx83 (list_to_map [("A0", [1; 1]); ("A1", [1; 0]); ("B0", [1; 1]);
                         ("B1", [1; 0]); ("CI", [1; 0])]) 2
  = Ok (list_to_map [("S0", [1; 0]); ("S1", [1; 1]); ("CO", [1; 0])]).
Proof. reflexivity. Qed.

Example latch_scenario :
  sim_cx279 (list_to_map [("S", [0; 1; 0; 0; 1]); ("R", [0; 0; 0; 1; 1])]) 5
  = Ok (list_to_map [("Q", [0; 1; 1; 0; 0]); ("~Q", [1; 0; 0; 1; 1])]).
Proof. reflexivity. Qed.

Example shift_register_scenario :
  sim_cx195 (list_to_map [("CLK", [0; 1; 0; 1; 0; 1]);
                          ("DIN", [1; 1; 0; 0; 1; 1])]) 6
  = Ok (list_to_map [("Q0", [0; 1; 1; 0; 0; 1]); ("Q1", [0; 0; 0; 1; 1; 0]);
                     ("Q2", [0; 0; 0; 0; 0; 1]); ("Q3", [0; 0; 0; 0; 0; 0])]).
Proof. reflexivity. Qed.

Example doubler_scenario :
  sim_cxf02 (list_to_map [("CLK", [1; 1; 0; 0; 1; 1]);
                          ("S", [0; 0; 1; 1; 1; 1])]) 6
  = Ok {[ "Y" := [1; 1; 1; 1; 1; 1] ]}.
Proof. reflexivity. Qed.

Example mask_scenario :
  generate_test_vector [0; 0; 1; 1; 1; 0] 2 1 = "x?xx?x".
Proof. reflexivity. Qed.

Example missing_signal_raises :
  sim_cx74 {[ "CLK" := [0; 1] ]} 2 = Raise (KeyError "D").
Proof. reflexivity. Qed.

Example empty_run_reads_nothing :
  sim_cx74 ∅ 0 = Ok (list_to_map [("Q", []); ("~Q", [])]).
Proof. reflexivity. Qed.

Example alu_scenario :
  sim_cx181 (list_to_map [("A0", [1; 1; 1; 1]); ("A1", [0; 0; 0; 0]);
                          ("B0", [1; 1; 1; 1]); ("B1", [1; 1; 1; 1]);
                          ("F0", [0; 1; 0; 1]); ("F1", [0; 0; 1; 1])]) 4
  = Ok (list_to_map [("Y0", [1; 1; 0; 0]); ("Y1", [0; 1; 1; 1]);
                     ("Z", [0; 0; 0; 0])]).
Proof. reflexivity. Qed.

Example decoder_scenario :
  sim_cx139 (list_to_map [("A0", [0; 1; 0; 1; 1]); ("A1", [0; 0; 1; 1; 1]);
                          ("E", [1; 1; 1; 1; 0])]) 5
  = Ok (list_to_map [("Y0", [1; 0; 0; 0; 0]); ("Y1", [0; 1; 0; 0; 0]);
                     ("Y2", [0; 0; 1; 0; 0]); ("Y3", [0; 0; 0; 1; 0])]).
Proof. reflexivity. Qed.

Example counter_scenario :
  sim_cx161 (list_to_map [("CLK", [0; 1; 0; 1; 0; 1; 0; 1]);
                          ("CLR", [0; 0; 0; 0; 0; 1; 0; 0])]) 8
  = Ok (list_to_map [("Q0", [0; 1; 1; 0; 0; 0; 0; 1]);
                     ("Q1", [0; 0; 0; 1; 1; 0; 0; 0]);
                     ("Q2", [0; 0; 0; 0; 0; 0; 0; 0]);
                     ("Q3", [0; 0; 0; 0; 0; 0; 0; 0])]).
Proof. reflexivity. Qed.

Example multiplexer_scenario :
  sim_cx153 (list_to_map [("D0", [1; 0; 0; 0]); ("D1", [0; 1; 0; 0]);
                          ("D2", [0; 0; 1; 0]); ("D3", [0; 0; 0; 1]);
                          ("S0", [0; 1; 0; 1]); ("S1", [0; 0; 1; 1])]) 4
  = Ok {[ "Y" := [1; 1; 1; 1] ]}.
Proof. reflexivity. Qed.

(** ** Properties of the mask synthesizer *)

(** C1, as the code has it: a tick outside the warm-up window and outside
    every transition's stability window carries the marker ['?'] (tick to
    be compared with the waveform), never the don't-care ['x']; the marker
    is the same whatever the waveform's value there. *)
Theorem stable_tick_is_marked_significant values st w k :
  (k < length values)%nat →
  ¬ Z.of_nat k < w →
  (∀ i, is_transition values i → ¬ in_window st i k) →
  String.get k (generate_test_vector values st w) = Some "?"%char
  ∧ String.get k (generate_test_vector values st w) ≠ Some "x"%char.
Proof.
  intros Hk Hw Hwin.
  assert (String.get k (generate_test_vector values st w) = Some "?"%char)
    as Hget; [|by rewrite Hget].
  rewrite generate_test_vector_get by done.
  rewrite bool_decide_false by done.
  destruct (covered values st k) eqn:Hc; [|done].
  apply covered_spec in Hc as (i & Ht & Hi). by destruct (Hwin i Ht).
Qed.

Lemma stable_tick_is_marked_significant_witness :
  String.get 4 (generate_test_vector [0; 0; 1; 1; 1; 0] 2 1) = Some "?"%char
  ∧ String.get 4 (generate_test_vector [0; 0; 1; 1; 1; 0] 2 1)
    ≠ Some "x"%char.
Proof.
  apply (stable_tick_is_marked_significant [0; 0; 1; 1; 1; 0] 2 1 4).
  - simpl; lia.
  - lia.
  - intros i [[Hi1 Hi2] Hne] [Hle Hlt].
    assert (i = 3 ∨ i = 4)%nat as [-> | ->] by lia; simpl in Hne; lia.
Defined.

(** C1 as stated fails: on the one-tick waveforms [0] and [1], with no
    warm-up and no transition, the symbol is ['?'] both times, so it is no
    encoding of the waveform's value. *)
Lemma stable_tick_symbol_is_not_the_value :
  (∀ i, ¬ is_transition [0] i) ∧ (∀ i, ¬ is_transition [1] i)
  ∧ String.get 0 (generate_test_vector [0] 1 0) = Some "?"%char
  ∧ String.get 0 (generate_test_vector [1] 1 0) = Some "?"%char
  ∧ ¬ (∃ sym : Z → ascii, sym 0 ≠ sym 1
         ∧ String.get 0 (generate_test_vector [0] 1 0) = Some (sym 0)
         ∧ String.get 0 (generate_test_vector [1] 1 0) = Some (sym 1)).
Proof.
  repeat split; try reflexivity.
  - intros i [[? ?] _]; simpl in *; lia.
  - intros i [[? ?] _]; simpl in *; lia.
  - intros (sym & Hne & H0 & H1). vm_compute in H0, H1. congruence.
Qed.

(** C2, as the code has it: at a transition [i], every tick [i + j] with
    [0 <= j < stability_ticks] that is inside the waveform is don't-care,
    whatever other windows overlap it; with [stability_ticks = 0] there is
    no such [j] and the transition forces nothing. *)
Theorem transition_window_is_dont_care values st w i j :
  is_transition values i →
  Z.of_nat j < st →
  (i + j < length values)%nat →
  String.get (i + j) (generate_test_vector values st w) = Some "x"%char.
Proof.
  intros Ht Hj Hlen.
  rewrite generate_test_vector_get by done.
  assert (covered values st (i + j) = true) as ->.
  { apply covered_spec. exists i. split; [done|]. split; lia. }
  by rewrite orb_true_r.
Qed.

Lemma transition_window_is_dont_care_witness :
  String.get (2 + 1) (generate_test_vector [0; 0; 1; 0; 0] 3 0)
  = Some "x"%char.
Proof.
  apply (transition_window_is_dont_care [0; 0; 1; 0; 0] 3 0 2 1).
  - split; [simpl; lia|]. simpl. lia.
  - lia.
  - simpl; lia.
Defined.

(** C2 as stated fails for [stability_ticks = 0]: tick 1 of [0; 1] is a
    transition and stays ['?']. *)
Lemma transition_tick_kept_when_stability_zero :
  is_transition [0; 1] 1
  ∧ String.get 1 (generate_test_vector [0; 1] 0 0) = Some "?"%char
  ∧ String.get 1 (generate_test_vector [0; 1] 0 0) ≠ Some "x"%char.
Proof.
  split; [|split; [reflexivity|discriminate]].
  split; [simpl; lia|]. simpl. lia.
Qed.

(** C3: with [warmup_ticks = w > 0], every tick below [w] that exists in
    the waveform is don't-care, whatever the waveform holds. *)
Theorem warmup_ticks_are_dont_care values st w k :
  0 < w →
  Z.of_nat k < w →
  (k < length values)%nat →
  String.get k (generate_test_vector values st w) = Some "x"%char.
Proof.
  intros Hw Hk Hlen.
  rewrite generate_test_vector_get by done.
  by rewrite bool_decide_true.
Qed.

Lemma warmup_ticks_are_dont_care_witness :
  String.get 1 (generate_test_vector [1; 1; 1] 1 2) = Some "x"%char.
Proof.
  apply (warmup_ticks_are_dont_care [1; 1; 1] 1 2 1); [lia|lia|simpl; lia].
Defined.

(** C4: the test vector is as long as the waveform, and the empty
    waveform gives the empty mask. *)
Theorem test_vector_length values st w :
  String.length (generate_test_vector values st w) = length values
  ∧ generate_test_vector [] st w = "".
Proof.
  split; [apply generate_test_vector_length|].
  pose proof (generate_test_vector_length [] st w) as Hlen.
  by destruct (generate_test_vector [] st w).
Qed.

(** ** Facts about the Python primitives and the loops *)

Lemma py_getitem_nat {A} (l : list A) (t : nat) (x : A) :
  l !! t = Some x → py_getitem l (Z.of_nat t) = Ok x.
Proof.
  intros Hl. pose proof (lookup_lt_Some _ _ _ Hl) as Hlt.
  unfold py_getitem.
  destruct (Z.ltb_spec (Z.of_nat t) 0) as [?|_]; [lia|].
  destruct (Z.leb_spec 0 (Z.of_nat t)) as [_|?]; [|lia].
  destruct (Z.ltb_spec (Z.of_nat t) (Z.of_nat (length l))) as [_|?]; [|lia].
  simpl. by rewrite Nat2Z.id, Hl.
Qed.

Lemma py_setitem_nat {A} (l : list A) (t : nat) (v : A) :
  (t < length l)%nat → py_setitem l (Z.of_nat t) v = Ok (<[t := v]> l).
Proof.
  intros Hlt. unfold py_setitem.
  destruct (Z.ltb_spec (Z.of_nat t) 0) as [?|_]; [lia|].
  destruct (Z.leb_spec 0 (Z.of_nat t)) as [_|?]; [|lia].
  destruct (Z.ltb_spec (Z.of_nat t) (Z.of_nat (length l))) as [_|?]; [|lia].
  simpl. by rewrite Nat2Z.id.
Qed.

Lemma sample_nat inputs name (l : list Z) (t : nat) :
  inputs !! name = Some l → (t < length l)%nat →
  sample inputs name (Z.of_nat t) = Ok (l !!! t).
Proof.
  intros Hin Hlt. unfold sample, py_dict_getitem. rewrite Hin. simpl.
  apply py_getitem_nat. by apply list_lookup_lookup_total_lt.
Qed.

Lemma bind_Ok {A B} (a : A) (f : A → result B) : (Ok a ≫= f) = f a.
Proof. reflexivity. Qed.

Lemma for_range_S {St} (body : nat → St → result St) start count s :
  for_range body start (S count) s
  = (s' ← body start s; for_range body (S start) count s').
Proof. reflexivity. Qed.

Lemma for_range_snoc {St} (body : nat → St → result St) start count s :
  for_range body start (S count) s
  = (s' ← for_range body start count s; body (start + count)%nat s').
Proof.
  revert start s; induction count as [|count IH]; intros start s.
  - simpl. rewrite Nat.add_0_r. by destruct (body start s).
  - rewrite (for_range_S body start (S count)), (for_range_S body start count).
    destruct (body start s) as [s1|e]; [|done].
    unfold mbind at 1 3, result_bind at 1 3. cbv beta iota.
    rewrite IH. by replace (S start + count)%nat with (start + S count)%nat
      by lia.
Qed.

Lemma complement_fmap (q : list Z) :
  complement q (length q) = Ok ((λ v, 1 - v) <$> q).
Proof.
  unfold complement, list_comp.
  assert (H : ∀ (suf pre : list Z),
            mapM (λ t, v ← py_getitem (pre ++ suf) (Z.of_nat t);
                       mret (1 - v))
                 (seq (length pre) (length suf))
            = Ok ((λ v, 1 - v) <$> suf)).
  { induction suf as [|x suf IH]; intros pre; simpl; [done|].
    rewrite (py_getitem_nat _ _ x) by apply list_lookup_middle, eq_refl.
    simpl. specialize (IH (pre ++ [x])).
    rewrite <- app_assoc, length_app in IH. simpl in IH.
    replace (length pre + 1)%nat with (S (length pre)) in IH by lia.
    by rewrite IH. }
  apply (H q []).
Qed.

(** ** The edge-triggered register CX74 *)

Section cx74_run.
Variables (inputs : gmap string (list Z)) (n : nat) (clk d : list Z).
Hypothesis in_clk : inputs !! "CLK" = Some clk.
Hypothesis in_d : inputs !! "D" = Some d.
Hypothesis len_clk : (n ≤ length clk)%nat.
Hypothesis len_d : (n ≤ length d)%nat.

(** State of the loop after [t] ticks. *)
Lemma cx74_loop_invariant (t : nat) :
  (t ≤ n)%nat →
  ∃ q, for_range (cx74_tick inputs) 0 t (replicate n 0, 0, 0)
       = Ok (q, match t with O => 0 | S t' => register_q clk d t' end,
                match t with O => 0 | S t' => clk !!! t' end)
       ∧ length q = n
       ∧ ∀ k, (k < t)%nat → q !! k = Some (register_q clk d k).
Proof.
  induction t as [|t IH]; intros Ht.
  - exists (replicate n 0). simpl. split; [done|].
    split; [apply length_replicate|]. intros; lia.
  - destruct IH as (q & Hrun & Hlen & Hq); [lia|].
    rewrite for_range_snoc, Hrun. simpl. unfold cx74_tick.
    rewrite (sample_nat inputs "CLK" clk) by (done || lia).
    rewrite (sample_nat inputs "D" d) by (done || lia). simpl.
    rewrite py_setitem_nat by lia. simpl.
    eexists. split; [|split; [by rewrite length_insert|]].
    + f_equal. f_equal. f_equal. by destruct t.
    + intros k Hk. destruct (decide (k = t)) as [->|Hne].
      * rewrite list_lookup_insert_eq by lia. f_equal. by destruct t.
      * rewrite list_lookup_insert_ne by done. apply Hq. lia.
Qed.
End cx74_run.

Lemma truthy_bit (v : Z) : is_bit v → truthy v = (v =? 1).
Proof. by intros [-> | ->]. Qed.

(** C5: on the waveforms CLK = [0,1,1,0,1], D = [0,0,1,1,1] the register
    shows Q = [0,0,0,0,1]; in every run, Q at a tick with a rising edge of
    CLK is D of that same tick, and otherwise Q of the tick before (0 at
    the start); on boolean samples a rising edge is "previous sample 0,
    current sample 1". *)
Theorem cx74_captures_on_rising_edge inputs n clk d :
  inputs !! "CLK" = Some clk →
  inputs !! "D" = Some d →
  (n ≤ length clk)%nat →
  (n ≤ length d)%nat →
  (∃ q, sim_cx74 inputs n
        = Ok (list_to_map [("Q", q); ("~Q", (λ v, 1 - v) <$> q)])
        ∧ length q = n
        ∧ ∀ t, (t < n)%nat →
            q !! t = Some (if rising_edge clk t then d !!! t
                           else match t with
                                | O => 0
                                | S t' => q !!! t'
                                end))
  ∧ (∀ t, is_bit (clk !!! t) →
          is_bit (match t with O => 0 | S t' => clk !!! t' end) →
          rising_edge clk t = true
          ↔ clk !!! t = 1 ∧ match t with O => 0 | S t' => clk !!! t' end = 0)
  ∧ (∃ m, sim_cx74 (list_to_map [("CLK", [0; 1; 1; 0; 1]);
                                  ("D", [0; 0; 1; 1; 1])]) 5 = Ok m
          ∧ m !! "Q" = Some [0; 0; 0; 0; 1]).
Proof.
  intros Hclk Hd Hlc Hld. split; [|split].
  - destruct (cx74_loop_invariant inputs n clk d Hclk Hd Hlc Hld n)
      as (q & Hrun & Hlen & Hq); [lia|].
    exists q. split; [|split; [done|]].
    + unfold sim_cx74. rewrite Hrun. simpl.
      rewrite <- Hlen at 1. by rewrite complement_fmap.
    + intros t Ht. rewrite (Hq t Ht). f_equal.
      destruct t as [|t]; simpl; [done|].
      by rewrite (list_lookup_total_correct q t _ (Hq t ltac:(lia))).
  - intros t Hb Hp. unfold rising_edge.
    rewrite !truthy_bit by done.
    destruct Hb as [-> | ->], Hp as [-> | ->]; simpl; split;
      (done || lia || intros [? ?]; lia).
  - eexists. split; [vm_compute; reflexivity|]. by vm_compute.
Qed.

Lemma cx74_captures_on_rising_edge_witness :
  ∃ q, sim_cx74 (list_to_map [("CLK", [0; 1; 1; 0; 1]);
                               ("D", [0; 0; 1; 1; 1])]) 5
       = Ok (list_to_map [("Q", q); ("~Q", (λ v, 1 - v) <$> q)])
       ∧ length q = 5%nat
       ∧ q !! 4%nat = Some 1.
Proof.
  destruct (cx74_captures_on_rising_edge
              (list_to_map [("CLK", [0; 1; 1; 0; 1]);
                            ("D", [0; 0; 1; 1; 1])]) 5
              [0; 1; 1; 0; 1] [0; 0; 1; 1; 1])
    as [(q & Hrun & Hlen & Hq) _].
  - reflexivity.
  - reflexivity.
  - simpl; lia.
  - simpl; lia.
  - exists q. split; [exact Hrun|]. split; [exact Hlen|].
    exact (Hq 4%nat ltac:(lia)).
Defined.

(** ** The addressed memory CX6116 *)

Lemma py_setitem_in_range {A} (l : list A) (i : Z) (v : A) :
  0 ≤ i < Z.of_nat (length l) →
  py_setitem l i v = Ok (<[Z.to_nat i := v]> l).
Proof.
  intros Hi. rewrite <- (Z2Nat.id i) at 1 by lia.
  apply py_setitem_nat. lia.
Qed.

Lemma py_getitem_in_range (l : list Z) (i : Z) :
  0 ≤ i < Z.of_nat (length l) →
  py_getitem l i = Ok (l !!! Z.to_nat i).
Proof.
  intros Hi. rewrite <- (Z2Nat.id i) at 1 by lia.
  apply py_getitem_nat, list_lookup_lookup_total_lt. lia.
Qed.

Section memory_facts.
Variables a2 a1 a0 we re d_in : list Z.

Lemma cell_content_unwritten (a : Z) (t : nat) :
  (∀ u, (u < t)%nat →
        ¬ (write_tick we re u = true ∧ address_at a2 a1 a0 u = a)) →
  cell_content a2 a1 a0 we re d_in a t = 0.
Proof.
  induction t as [|t IH]; intros Hno; simpl; [done|].
  destruct (write_tick we re t) eqn:Hw; simpl.
  - destruct (Z.eqb_spec (address_at a2 a1 a0 t) a) as [Ha|_].
    + destruct (Hno t); [lia|done].
    + apply IH. intros u Hu. apply Hno. lia.
  - apply IH. intros u Hu. apply Hno. lia.
Qed.

Lemma cell_content_last_write (a : Z) (s t : nat) :
  (s < t)%nat →
  write_tick we re s = true →
  address_at a2 a1 a0 s = a →
  (∀ u, (s < u < t)%nat →
        ¬ (write_tick we re u = true ∧ address_at a2 a1 a0 u = a)) →
  cell_content a2 a1 a0 we re d_in a t = d_in !!! s.
Proof.
  intros Hst Hw Ha. induction t as [|t IH]; intros Hno; [lia|].
  simpl. destruct (decide (s = t)) as [<-|Hne].
  - rewrite Hw. simpl. by rewrite Ha, Z.eqb_refl.
  - destruct (write_tick we re t) eqn:Hwt; simpl.
    + destruct (Z.eqb_spec (address_at a2 a1 a0 t) a) as [Hat|_].
      * destruct (Hno t); [lia|done].
      * apply IH; [lia|]. intros u Hu. apply Hno. lia.
    + apply IH; [lia|]. intros u Hu. apply Hno. lia.
Qed.
End memory_facts.

Section cx6116_run.
Variables (inputs : gmap string (list Z)) (n : nat).
Variables a2 a1 a0 we re d_in : list Z.
Hypothesis waves : cx6116_waves inputs n a2 a1 a0 we re d_in.

Abbreviation addr := (address_at a2 a1 a0).
Abbreviation cell := (cell_content a2 a1 a0 we re d_in).

Lemma cx6116_wave_sample name (l : list Z) (t : nat) :
  inputs !! name = Some l →
  l ∈ [a2; a1; a0; we; re; d_in] →
  (t < n)%nat →
  sample inputs name (Z.of_nat t) = Ok (l !!! t) ∧ is_bit (l !!! t).
Proof.
  intros Hin Hl Ht.
  destruct waves as (_ & _ & _ & _ & _ & _ & Hall).
  rewrite Forall_forall in Hall. destruct (Hall l Hl) as [Hlen Hbits].
  split; [apply sample_nat; [done|lia]|].
  apply (Forall_lookup_1 _ l t); [done|].
  apply list_lookup_lookup_total_lt. lia.
Qed.

Lemma cx6116_address_range (t : nat) :
  (t < n)%nat →
  cx6116_addr inputs t = Ok (addr t) ∧ 0 ≤ addr t ≤ 7.
Proof.
  intros Ht. destruct waves as (H2 & H1 & H0 & _).
  destruct (cx6116_wave_sample "A2" a2 t H2) as [E2 B2];
    [repeat constructor|done|].
  destruct (cx6116_wave_sample "A1" a1 t H1) as [E1 B1];
    [repeat constructor|done|].
  destruct (cx6116_wave_sample "A0" a0 t H0) as [E0 B0];
    [repeat constructor|done|].
  unfold cx6116_addr, address_at. rewrite E2, E1, E0. simpl.
  split; [done|]. unfold is_bit in *. lia.
Qed.

(** One tick of the loop on well-formed state, in closed form. *)
Lemma cx6116_tick_closed (t : nat) (mem dout : list Z) :
  (t < n)%nat → length mem = 8%nat → length dout = n →
  cx6116_tick inputs t (mem, dout)
  = Ok (if write_tick we re t
        then <[Z.to_nat (addr t) := d_in !!! t]> mem else mem,
        if read_tick we re t
        then <[t := mem !!! Z.to_nat (addr t)]> dout else dout).
Proof.
  intros Ht Hm Hd.
  destruct (cx6116_address_range t Ht) as [Ea Ha].
  destruct waves as (_ & _ & _ & Hwe & Hre & Hdi & _).
  destruct (cx6116_wave_sample "WE" we t Hwe) as [Ew Bw];
    [repeat constructor|done|].
  destruct (cx6116_wave_sample "RE" re t Hre) as [Er Br];
    [repeat constructor|done|].
  destruct (cx6116_wave_sample "D_in" d_in t Hdi) as [Ed _];
    [repeat constructor|done|].
  unfold cx6116_tick. rewrite Ea. simpl. rewrite Ew, Er, Ed. simpl.
  unfold write_tick, read_tick. rewrite !truthy_bit by done.
  destruct Bw as [-> | ->], Br as [-> | ->]; simpl; try done.
  - rewrite py_getitem_in_range by lia. simpl.
    by rewrite py_setitem_nat by lia.
  - by rewrite py_setitem_in_range by lia.
Qed.

(** State of the loop after [t] ticks: the cells hold what the write
    history says, and [d_out] is filled up to [t]. *)
Lemma cx6116_loop_invariant (t : nat) :
  (t ≤ n)%nat →
  ∃ mem dout,
    for_range (cx6116_tick inputs) 0 t (cx6116_init n) = Ok (mem, dout)
    ∧ length mem = 8%nat ∧ length dout = n
    ∧ (∀ c, (c < 8)%nat → mem !! c = Some (cell (Z.of_nat c) t))
    ∧ (∀ k, (k < t)%nat →
         dout !! k = Some (if read_tick we re k then cell (addr k) k
                           else 0))
    ∧ (∀ k, (t ≤ k < n)%nat → dout !! k = Some 0).
Proof.
  induction t as [|t IH]; intros Ht.
  - exists (replicate 8 0), (replicate n 0).
    split; [done|]. split; [done|]. split; [apply length_replicate|].
    split; [|split].
    + intros c Hc. by apply lookup_replicate_2.
    + intros; lia.
    + intros k Hk. apply lookup_replicate_2. lia.
  - destruct IH as (mem & dout & Hrun & Hm & Hd & Hcell & Hpre & Hsuf);
      [lia|].
    destruct (cx6116_address_range t) as [_ Ha]; [lia|].
    rewrite for_range_snoc, Hrun, bind_Ok, Nat.add_0_l.
    rewrite cx6116_tick_closed by (done || lia).
    eexists _, _. split; [done|].
    split; [by destruct (write_tick we re t); rewrite ?length_insert|].
    split; [by destruct (read_tick we re t); rewrite ?length_insert|].
    split; [|split].
    + intros c Hc. simpl. destruct (write_tick we re t); simpl.
      * destruct (Z.eqb_spec (addr t) (Z.of_nat c)) as [Heq|Hne].
        -- rewrite Heq, Nat2Z.id. apply list_lookup_insert_eq. lia.
        -- rewrite list_lookup_insert_ne by lia. by apply Hcell.
      * by apply Hcell.
    + intros k Hk. destruct (decide (k = t)) as [->|Hne].
      * destruct (read_tick we re t).
        -- rewrite list_lookup_insert_eq by lia. f_equal.
           apply list_lookup_total_correct.
           rewrite Hcell by lia. f_equal. f_equal. lia.
        -- apply Hsuf. lia.
      * destruct (read_tick we re t).
        -- rewrite list_lookup_insert_ne by done. apply Hpre. lia.
        -- apply Hpre. lia.
    + intros k Hk. destruct (read_tick we re t).
      * rewrite list_lookup_insert_ne by lia. apply Hsuf. lia.
      * apply Hsuf. lia.
Qed.

(** The run as a whole. *)
Lemma cx6116_run_result :
  ∃ d_out,
    sim_cx6116 inputs n = Ok (list_to_map [("D_out", d_out)])
    ∧ length d_out = n
    ∧ ∀ t, (t < n)%nat →
        d_out !! t = Some (if read_tick we re t then cell (addr t) t
                           else 0).
Proof.
  destruct (cx6116_loop_invariant n)
    as (mem & dout & Hrun & _ & Hd & _ & Hpre & _); [lia|].
  exists dout. unfold sim_cx6116. rewrite Hrun. simpl. auto.
Qed.
End cx6116_run.

Ltac solve_waves :=
  repeat first
    [ split | reflexivity | apply Forall_cons | apply Forall_nil
    | (unfold is_bit; lia) | (simpl; lia) ].

(** C6: in a run on boolean waveforms, at every tick: with WE = 1 and
    RE = 0 the addressed cell becomes the data input of that tick; with
    RE = 1 and WE = 0 the data output is the content the addressed cell
    had before the tick and no cell changes; with WE = RE no cell changes
    and the data output is 0.  Hence a read returns the data of the latest
    earlier write to its address, and 0 when there was none. *)
Theorem cx6116_write_read_arbitration inputs n a2 a1 a0 we re d_in :
  cx6116_waves inputs n a2 a1 a0 we re d_in →
  ∃ d_out,
    sim_cx6116 inputs n = Ok (list_to_map [("D_out", d_out)])
    ∧ length d_out = n
    ∧ (∀ t, (t < n)%nat →
         ∃ mem mem' dp dp',
           for_range (cx6116_tick inputs) 0 t (cx6116_init n)
           = Ok (mem, dp)
           ∧ for_range (cx6116_tick inputs) 0 (S t) (cx6116_init n)
             = Ok (mem', dp')
           ∧ (we !!! t = 1 → re !!! t = 0 →
              mem' = <[Z.to_nat (address_at a2 a1 a0 t) := d_in !!! t]> mem
              ∧ mem' !! Z.to_nat (address_at a2 a1 a0 t)
                = Some (d_in !!! t))
           ∧ (re !!! t = 1 → we !!! t = 0 →
              mem' = mem
              ∧ d_out !! t = mem !! Z.to_nat (address_at a2 a1 a0 t)
              ∧ is_Some (d_out !! t))
           ∧ (we !!! t = re !!! t → mem' = mem ∧ d_out !! t = Some 0))
    ∧ (∀ s t, (s < t < n)%nat →
         write_tick we re s = true →
         read_tick we re t = true →
         address_at a2 a1 a0 t = address_at a2 a1 a0 s →
         (∀ u, (s < u < t)%nat →
               ¬ (write_tick we re u = true
                  ∧ address_at a2 a1 a0 u = address_at a2 a1 a0 s)) →
         d_out !! t = Some (d_in !!! s))
    ∧ (∀ t, (t < n)%nat →
         read_tick we re t = true →
         (∀ u, (u < t)%nat →
               ¬ (write_tick we re u = true
                  ∧ address_at a2 a1 a0 u = address_at a2 a1 a0 t)) →
         d_out !! t = Some 0).
Proof.
  intros Hw.
  destruct (cx6116_run_result inputs n a2 a1 a0 we re d_in Hw)
    as (d_out & Hrun & Hlen & Hout).
  exists d_out. split; [done|]. split; [done|]. split; [|split].
  - intros t Ht.
    destruct (cx6116_loop_invariant inputs n a2 a1 a0 we re d_in Hw t)
      as (mem & dp & Ht0 & Hm & Hd & Hcell & _ & _); [lia|].
    destruct (cx6116_address_range inputs n a2 a1 a0 we re d_in Hw t Ht)
      as [_ Ha].
    eexists mem, _, dp, _. split; [done|]. split.
    { rewrite for_range_snoc, Ht0, bind_Ok, Nat.add_0_l.
      by apply (cx6116_tick_closed inputs n a2 a1 a0 we re d_in Hw). }
    rewrite (Hout t Ht). unfold write_tick, read_tick.
    split; [|split].
    + intros -> ->. simpl. split; [done|].
      apply list_lookup_insert_eq. lia.
    + intros -> ->. simpl. split; [done|]. split; [|by eexists].
      rewrite Hcell by lia. f_equal. f_equal. lia.
    + intros ->. split.
      * by destruct (Z.eqb_spec (re !!! t) 1) as [->|]; simpl.
      * by destruct (Z.eqb_spec (re !!! t) 1) as [->|]; simpl.
  - intros s t Hst Hws Hrt Ha Hno. rewrite (Hout t) by lia. rewrite Hrt.
    f_equal. rewrite Ha. by apply cell_content_last_write; [lia|..].
  - intros t Ht Hrt Hno. rewrite (Hout t Ht), Hrt. f_equal.
    by apply cell_content_unwritten.
Qed.

Lemma cx6116_write_read_arbitration_witness :
  ∃ d_out,
    sim_cx6116 ram_example 3 = Ok (list_to_map [("D_out", d_out)])
    ∧ d_out !! 1%nat = Some 1
    ∧ d_out !! 2%nat = Some 0.
Proof.
  destruct (cx6116_write_read_arbitration ram_example 3
              [1; 1; 0] [0; 0; 1] [1; 1; 0] [1; 0; 0] [0; 1; 1] [1; 0; 0])
    as (d_out & Hrun & _ & _ & Hread & Hfresh).
  - unfold cx6116_waves. solve_waves.
  - exists d_out. split; [exact Hrun|]. split.
    + apply (Hread 0%nat 1%nat); [lia|reflexivity|reflexivity|reflexivity|].
      intros u Hu. lia.
    + apply (Hfresh 2%nat); [lia|reflexivity|].
      intros u Hu [_ Ha].
      assert (u = 0 ∨ u = 1)%nat as [-> | ->] by lia; vm_compute in Ha; lia.
Defined.

(** C10: in a run on boolean waveforms, the address of every tick is
    within 0..7, the memory array has its 8 cells at every tick, so the
    read and the write of the addressed cell succeed, and the run ends
    without an exception. *)
Theorem cx6116_memory_access_in_bounds inputs n a2 a1 a0 we re d_in :
  cx6116_waves inputs n a2 a1 a0 we re d_in →
  (∀ t, (t < n)%nat →
     cx6116_addr inputs t = Ok (address_at a2 a1 a0 t)
     ∧ 0 ≤ address_at a2 a1 a0 t ≤ 7
     ∧ ∃ mem dp,
         for_range (cx6116_tick inputs) 0 t (cx6116_init n) = Ok (mem, dp)
         ∧ length mem = 8%nat
         ∧ (∃ v, py_getitem mem (address_at a2 a1 a0 t) = Ok v)
         ∧ (∀ v, ∃ mem', py_setitem mem (address_at a2 a1 a0 t) v
                         = Ok mem'))
  ∧ ∃ outputs, sim_cx6116 inputs n = Ok outputs.
Proof.
  intros Hw. split.
  - intros t Ht.
    destruct (cx6116_address_range inputs n a2 a1 a0 we re d_in Hw t Ht)
      as [Ea Ha].
    destruct (cx6116_loop_invariant inputs n a2 a1 a0 we re d_in Hw t)
      as (mem & dp & Ht0 & Hm & _); [lia|].
    split; [done|]. split; [done|]. exists mem, dp.
    split; [done|]. split; [done|]. split.
    + eexists. apply py_getitem_in_range. lia.
    + intros v. eexists. apply py_setitem_in_range. lia.
  - destruct (cx6116_run_result inputs n a2 a1 a0 we re d_in Hw)
      as (d_out & Hrun & _). by eexists.
Qed.

Lemma cx6116_memory_access_in_bounds_witness :
  (∀ t, (t < 3)%nat →
     0 ≤ address_at [1; 1; 0] [0; 0; 1] [1; 1; 0] t ≤ 7)
  ∧ ∃ outputs, sim_cx6116 ram_example 3 = Ok outputs.
Proof.
  destruct (cx6116_memory_access_in_bounds ram_example 3
              [1; 1; 0] [0; 0; 1] [1; 1; 0] [1; 0; 0] [0; 1; 1] [1; 0; 0])
    as [Hticks Hrun].
  - unfold cx6116_waves. solve_waves.
  - split; [|exact Hrun]. intros t Ht.
    destruct (Hticks t Ht) as (_ & Ha & _). exact Ha.
Defined.

(** ** Level processing: skipped runs *)

Lemma sample_past_end inputs name (l : list Z) (t : nat) :
  inputs !! name = Some l → (length l ≤ t)%nat →
  sample inputs name (Z.of_nat t)
  = Raise (IndexError "list index out of range").
Proof.
  intros Hin Hlen. unfold sample, py_dict_getitem. rewrite Hin. simpl.
  unfold py_getitem.
  destruct (Z.ltb_spec (Z.of_nat t) 0) as [?|_]; [lia|].
  destruct (Z.ltb_spec (Z.of_nat t) (Z.of_nat (length l))) as [?|_]; [lia|].
  by rewrite andb_false_r.
Qed.

(** What [process_level] and the batch do when the model raises. *)
Lemma process_level_sim_raises level_path dry_run w data config inputs
    n_ticks e rest count :
  files w !! level_path = Some data →
  LEVEL_CONFIG !! level_name data = Some config →
  collect_inputs (index_signals (cfg_pin_map config) (cfg_inputs config))
                 (level_pins data) (∅, 64%nat) (level_waveforms data)
  = Ok (inputs, n_ticks) →
  cfg_sim config inputs n_ticks = Raise e →
  let report := [Print ("  " +:+ path_name level_path
                        +:+ ": Simulation error: " +:+ exn_str e);
                 PrintExc e] in
  process_level level_path dry_run w = (emit report w, Ok false)
  ∧ process_all (level_path :: rest) dry_run count w
    = process_all rest dry_run count (emit report w).
Proof.
  intros Hfile Hcfg Hin Hsim report.
  assert (process_level level_path dry_run w = (emit report w, Ok false))
    as Hpl.
  { unfold process_level. by rewrite Hfile, Hcfg, Hin, Hsim. }
  split; [done|]. simpl. by rewrite Hpl.
Qed.

(** ** Input collection and waveform lengths *)

Lemma collect_input_spec idx pins inputs n wf st' :
  collect_input idx pins (inputs, n) wf = Ok st' →
  st' = match collected_name idx pins wf with
        | Some nm => (<[nm := parse_values (wf_values wf)]> inputs,
                      String.length (wf_values wf))
        | None => (inputs, n)
        end.
Proof.
  unfold collect_input, collected_name.
  destruct (wf_is_input wf); simpl; [|by intros [= <-]].
  destruct (signal_name idx pins (wf_pin_index wf)) as [[nm|]|e]; simpl;
    [| by intros [= <-] | done].
  destruct (bool_decide (nm = "vcc") || bool_decide (nm = "nc"));
    by intros [= <-].
Qed.

Lemma collect_inputs_cons idx pins st wf wfs :
  collect_inputs idx pins st (wf :: wfs)
  = (st' ← collect_input idx pins st wf; collect_inputs idx pins st' wfs).
Proof. reflexivity. Qed.

Lemma collect_inputs_spec idx pins wfs inputs0 n0 inputs n :
  collect_inputs idx pins (inputs0, n0) wfs = Ok (inputs, n) →
  n = match last (List.filter
                    (λ wf, bool_decide (is_Some (collected_name idx pins wf)))
                    wfs) with
      | Some wf => String.length (wf_values wf)
      | None => n0
      end
  ∧ ∀ nm,
      inputs !! nm
      = match last (List.filter
                      (λ wf, bool_decide (collected_name idx pins wf
                                          = Some nm)) wfs) with
        | Some wf => Some (parse_values (wf_values wf))
        | None => inputs0 !! nm
        end.
Proof.
  revert inputs0 n0.
  induction wfs as [|wf wfs IH]; intros inputs0 n0 Hrun.
  { by injection Hrun as <- <-. }
  rewrite collect_inputs_cons in Hrun.
  destruct (collect_input idx pins (inputs0, n0) wf) as [st'|e] eqn:H1;
    [rewrite bind_Ok in Hrun|done].
  apply collect_input_spec in H1. simpl List.filter.
  destruct (collected_name idx pins wf) as [nm0|] eqn:Hname; subst st'.
  - destruct (IH _ _ Hrun) as [Hn Hin].
    rewrite bool_decide_true by (by eexists). split.
    + rewrite last_cons, Hn.
      by match goal with |- context [last ?l] => destruct (last l) end.
    + intros nm. rewrite Hin.
      destruct (decide (nm0 = nm)) as [->|Hne].
      * rewrite bool_decide_true by done. rewrite last_cons.
        match goal with |- context [last ?l] => destruct (last l) end;
          [done|]. by rewrite lookup_insert_eq.
      * rewrite bool_decide_false by congruence.
        by rewrite lookup_insert_ne.
  - destruct (IH _ _ Hrun) as [Hn Hin].
    rewrite bool_decide_false by (by intros [? ?]). split; [done|].
    intros nm. by rewrite Hin, bool_decide_false.
Qed.

(** *** Samples past the tick count are never read *)

Lemma py_getitem_take (l : list Z) (n : nat) (i : Z) :
  0 ≤ i < Z.of_nat n → py_getitem (take n l) i = py_getitem l i.
Proof.
  intros Hi. unfold py_getitem. rewrite length_take.
  destruct (Z.ltb_spec i 0) as [?|_]; [lia|].
  destruct (Z.leb_spec 0 i) as [_|?]; [|lia]. simpl.
  destruct (Z.ltb_spec i (Z.of_nat (length l))) as [Hl|Hl].
  - destruct (Z.ltb_spec i (Z.of_nat (n `min` length l))) as [_|?]; [|lia].
    by rewrite lookup_take_lt by lia.
  - by destruct (Z.ltb_spec i (Z.of_nat (n `min` length l))) as [?|_]; [lia|].
Qed.

Lemma sample_take inputs (n : nat) name (i : Z) :
  0 ≤ i < Z.of_nat n →
  sample (take n <$> inputs) name i = sample inputs name i.
Proof.
  intros Hi. unfold sample, py_dict_getitem. rewrite lookup_fmap.
  destruct (inputs !! name) as [l|]; simpl; [|done].
  by apply py_getitem_take.
Qed.

Lemma sample_take_tick inputs (n : nat) name (t : nat) :
  (t < n)%nat →
  sample (take n <$> inputs) name (Z.of_nat t)
  = sample inputs name (Z.of_nat t).
Proof. intros Ht. apply sample_take. lia. Qed.

Lemma for_range_ext {St} (b1 b2 : nat → St → result St) start count s :
  (∀ t s, (start ≤ t < start + count)%nat → b1 t s = b2 t s) →
  for_range b1 start count s = for_range b2 start count s.
Proof.
  revert start s. induction count as [|count IH]; intros start s Hb; [done|].
  simpl. rewrite Hb by lia. destruct (b2 start s) as [s'|e]; simpl; [|done].
  apply IH. intros; apply Hb; lia.
Qed.

Lemma list_comp_ext (f1 f2 : nat → result Z) n :
  (∀ t, (t < n)%nat → f1 t = f2 t) → list_comp n f1 = list_comp n f2.
Proof.
  intros Hf. unfold list_comp.
  assert (∀ start m, (start + m ≤ n)%nat →
            mapM f1 (seq start m) = mapM f2 (seq start m)) as H.
  { intros start m. revert start. induction m as [|m IH]; intros start Hm;
      [done|]. simpl. rewrite Hf by lia. by rewrite IH by lia. }
  apply H. lia.
Qed.

(** The loop of the goal's left side reads the waveforms cut to the tick
    count; turn it into the loop on the waveforms as given. *)
Ltac uncut_loop :=
  match goal with
  | |- ?lhs = ?rhs =>
      match lhs with
      | context [for_range ?b1 0%nat ?n ?s0] =>
          match rhs with
          | context [for_range ?b2 0%nat n s0] =>
              rewrite (for_range_ext b1 b2 0 n s0); [reflexivity|];
              intros ? ? ?; cbv beta
          end
      end
  end.

Lemma sim_cx04_uncut inputs n :
  sim_cx04 (take n <$> inputs) n = sim_cx04 inputs n.
Proof.
  unfold sim_cx04. cbv zeta.
  assert (H : ∀ name,
            list_comp n (λ t, v ← sample (take n <$> inputs) name (Z.of_nat t);
                              mret (1 - v))
            = list_comp n (λ t, v ← sample inputs name (Z.of_nat t);
                                mret (1 - v))).
  { intros name. apply list_comp_ext. intros t Ht.
    by rewrite sample_take_tick. }
  by rewrite !H.
Qed.

Lemma sim_cx08_uncut inputs n :
  sim_cx08 (take n <$> inputs) n = sim_cx08 inputs n.
Proof.
  unfold sim_cx08. cbv zeta.
  assert (H : ∀ op : Z → Z → Z,
            list_comp n (λ t,
              a ← sample (take n <$> inputs) "A" (Z.of_nat t);
              b ← sample (take n <$> inputs) "B" (Z.of_nat t);
              c ← sample (take n <$> inputs) "C" (Z.of_nat t);
              d ← sample (take n <$> inputs) "D" (Z.of_nat t);
              mret (op (op (op a b) c) d))
            = list_comp n (λ t,
                a ← sample inputs "A" (Z.of_nat t);
                b ← sample inputs "B" (Z.of_nat t);
                c ← sample inputs "C" (Z.of_nat t);
                d ← sample inputs "D" (Z.of_nat t);
                mret (op (op (op a b) c) d))).
  { intros op. apply list_comp_ext. intros t Ht.
    by rewrite !sample_take_tick. }
  by rewrite !H.
Qed.

Lemma three_gates_uncut op inputs n :
  three_gates op (take n <$> inputs) n = three_gates op inputs n.
Proof.
  unfold three_gates. cbv zeta.
  assert (H : ∀ x y,
            list_comp n (λ t,
              a ← sample (take n <$> inputs) x (Z.of_nat t);
              b ← sample (take n <$> inputs) y (Z.of_nat t);
              mret (1 - op a b))
            = list_comp n (λ t,
                a ← sample inputs x (Z.of_nat t);
                b ← sample inputs y (Z.of_nat t);
                mret (1 - op a b))).
  { intros x y. apply list_comp_ext. intros t Ht.
    by rewrite !sample_take_tick. }
  by rewrite !H.
Qed.

Lemma sim_cx279_uncut inputs n :
  sim_cx279 (take n <$> inputs) n = sim_cx279 inputs n.
Proof.
  unfold sim_cx279. uncut_loop. by rewrite !sample_take_tick by lia.
Qed.

Lemma sim_cx279e_uncut inputs n :
  sim_cx279e (take n <$> inputs) n = sim_cx279e inputs n.
Proof.
  unfold sim_cx279e. uncut_loop. by rewrite !sample_take_tick by lia.
Qed.

Lemma sim_cx74_uncut inputs n :
  sim_cx74 (take n <$> inputs) n = sim_cx74 inputs n.
Proof.
  unfold sim_cx74. uncut_loop. unfold cx74_tick.
  by rewrite !sample_take_tick by lia.
Qed.

Lemma sim_cxf02_uncut inputs n :
  sim_cxf02 (take n <$> inputs) n = sim_cxf02 inputs n.
Proof.
  unfold sim_cxf02. uncut_loop. rewrite !sample_take_tick by lia.
  destruct (Z.leb_spec 2 (Z.of_nat t)); [|done].
  by rewrite sample_take by lia.
Qed.

Lemma sim_cx139_uncut inputs n :
  sim_cx139 (take n <$> inputs) n = sim_cx139 inputs n.
Proof.
  unfold sim_cx139. uncut_loop. by rewrite !sample_take_tick by lia.
Qed.

Lemma sim_cx83_uncut inputs n :
  sim_cx83 (take n <$> inputs) n = sim_cx83 inputs n.
Proof.
  unfold sim_cx83. uncut_loop. by rewrite !sample_take_tick by lia.
Qed.

Lemma sim_cx93_uncut inputs n :
  sim_cx93 (take n <$> inputs) n = sim_cx93 inputs n.
Proof.
  unfold sim_cx93. uncut_loop. by rewrite !sample_take_tick by lia.
Qed.

Lemma sim_cx153_uncut inputs n :
  sim_cx153 (take n <$> inputs) n = sim_cx153 inputs n.
Proof.
  unfold sim_cx153. uncut_loop. by rewrite !sample_take_tick by lia.
Qed.

Lemma sim_cx161_uncut inputs n :
  sim_cx161 (take n <$> inputs) n = sim_cx161 inputs n.
Proof.
  unfold sim_cx161. uncut_loop. by rewrite !sample_take_tick by lia.
Qed.

Lemma sim_cx195_uncut inputs n :
  sim_cx195 (take n <$> inputs) n = sim_cx195 inputs n.
Proof.
  unfold sim_cx195. uncut_loop. by rewrite !sample_take_tick by lia.
Qed.

Lemma sim_cx6116_uncut inputs n :
  sim_cx6116 (take n <$> inputs) n = sim_cx6116 inputs n.
Proof.
  unfold sim_cx6116. uncut_loop. unfold cx6116_tick, cx6116_addr.
  by rewrite !sample_take_tick by lia.
Qed.

Lemma sim_cx181_uncut inputs n :
  sim_cx181 (take n <$> inputs) n = sim_cx181 inputs n.
Proof.
  unfold sim_cx181. uncut_loop. by rewrite !sample_take_tick by lia.
Qed.

(** Every model of the catalogue gives, on waveforms cut to the tick
    count, what it gives on the waveforms as collected. *)
Lemma catalog_sim_uncut name config inputs n :
  LEVEL_CONFIG !! name = Some config →
  cfg_sim config (take n <$> inputs) n = cfg_sim config inputs n.
Proof.
  intros Hcfg. unfold LEVEL_CONFIG in Hcfg.
  apply elem_of_list_to_map_2 in Hcfg.
  repeat (apply elem_of_cons in Hcfg as [[= -> ->]|Hcfg]);
    [..|by apply elem_of_nil in Hcfg]; cbn [mk_config cfg_sim].
  - apply sim_cx04_uncut.
  - apply sim_cx08_uncut.
  - apply three_gates_uncut.
  - apply three_gates_uncut.
  - done.
  - apply sim_cx279_uncut.
  - apply sim_cx279e_uncut.
  - done.
  - apply sim_cx74_uncut.
  - apply sim_cxf02_uncut.
  - apply sim_cx139_uncut.
  - apply sim_cx83_uncut.
  - apply sim_cx93_uncut.
  - apply sim_cx153_uncut.
  - apply sim_cx161_uncut.
  - apply sim_cx195_uncut.
  - apply sim_cx6116_uncut.
  - apply sim_cx181_uncut.
Qed.

(** The run of [process_level] that reaches the output loop. *)
Lemma process_level_unfold level_path dry_run w data config inputs n_ticks
    outputs :
  files w !! level_path = Some data →
  LEVEL_CONFIG !! level_name data = Some config →
  collect_inputs (index_signals (cfg_pin_map config) (cfg_inputs config))
                 (level_pins data) (∅, 64%nat) (level_waveforms data)
  = Ok (inputs, n_ticks) →
  cfg_sim config inputs n_ticks = Ok outputs →
  process_level level_path dry_run w
  = match update_outputs level_path
            (index_signals (cfg_pin_map config) (cfg_outputs config))
            (level_pins data) outputs
            (default 1 (cfg_stability_ticks config))
            (default 0 (cfg_warmup_ticks config))
            (level_waveforms data) false with
    | (evs, Raise e) => (emit evs w, Raise e)
    | (evs, Ok (wfs, modified)) =>
        (if modified && negb dry_run
         then write_file level_path
                {| level_name := level_name data;
                   level_pins := level_pins data;
                   level_waveforms := wfs |} (emit evs w)
         else emit evs w, Ok modified)
    end.
Proof.
  intros Hfile Hcfg Hin Hsim. unfold process_level.
  by rewrite Hfile, Hcfg, Hin, Hsim.
Qed.

(** C7, as the code has it: waveform lengths are not validated and no tick
    count is declared.  The tick count of a run is the length of the last
    waveform the input loop keeps (an input waveform whose signal name is
    found and is neither ['vcc'] nor ['nc']), 64 when it keeps none, and
    each signal has all the samples of the last waveform kept under its
    name, whatever their number.  Reading a sample at or past the end of a
    waveform raises [IndexError]; a run whose model raises [IndexError] is
    reported by one line with the level file's name and the exception's
    text (no signal name, no lengths) and a traceback, returns [False]
    with no file changed, and the batch goes on with the next level.  A
    waveform longer than the tick count is not detected: the model returns
    what it returns on the waveforms cut to the tick count, and when it
    returns outputs [process_level] goes on to the output waveforms. *)
Theorem waveform_lengths_are_not_validated level_path dry_run w data config
    inputs n_ticks rest count :
  files w !! level_path = Some data →
  LEVEL_CONFIG !! level_name data = Some config →
  collect_inputs (index_signals (cfg_pin_map config) (cfg_inputs config))
                 (level_pins data) (∅, 64%nat) (level_waveforms data)
  = Ok (inputs, n_ticks) →
  let idx_to_input :=
    index_signals (cfg_pin_map config) (cfg_inputs config) in
  n_ticks = tick_count idx_to_input (level_pins data) (level_waveforms data)
  ∧ (∀ nm, inputs !! nm
           = collected_samples idx_to_input (level_pins data)
               (level_waveforms data) nm)
  ∧ (∀ name l t, inputs !! name = Some l → (length l ≤ t)%nat →
       sample inputs name (Z.of_nat t)
       = Raise (IndexError "list index out of range"))
  ∧ (∀ msg, cfg_sim config inputs n_ticks = Raise (IndexError msg) →
       let report := [Print ("  " +:+ path_name level_path
                             +:+ ": Simulation error: " +:+ msg);
                      PrintExc (IndexError msg)] in
       process_level level_path dry_run w = (emit report w, Ok false)
       ∧ files (emit report w) = files w
       ∧ process_all (level_path :: rest) dry_run count w
         = process_all rest dry_run count (emit report w))
  ∧ cfg_sim config inputs n_ticks
    = cfg_sim config (take n_ticks <$> inputs) n_ticks
  ∧ (∀ outputs, cfg_sim config inputs n_ticks = Ok outputs →
       process_level level_path dry_run w
       = match update_outputs level_path
               (index_signals (cfg_pin_map config) (cfg_outputs config))
               (level_pins data) outputs
               (default 1 (cfg_stability_ticks config))
               (default 0 (cfg_warmup_ticks config))
               (level_waveforms data) false with
         | (evs, Raise e) => (emit evs w, Raise e)
         | (evs, Ok (wfs, modified)) =>
             (if modified && negb dry_run
              then write_file level_path
                     {| level_name := level_name data;
                        level_pins := level_pins data;
                        level_waveforms := wfs |} (emit evs w)
              else emit evs w, Ok modified)
         end).
Proof.
  intros Hfile Hcfg Hin idx_to_input.
  destruct (collect_inputs_spec _ _ _ _ _ _ _ Hin) as [Hn Hsamples].
  split; [done|]. split.
  { intros nm. rewrite Hsamples. unfold collected_samples.
    by destruct (last _). }
  split; [intros name l t; apply sample_past_end|].
  split.
  { intros msg Hsim report.
    destruct (process_level_sim_raises level_path dry_run w data config
                inputs n_ticks (IndexError msg) rest count)
      as [Hpl Hall]; done. }
  split; [symmetry; by eapply catalog_sim_uncut|].
  intros outputs Hsim.
  by apply (process_level_unfold _ _ _ _ _ inputs n_ticks).
Qed.

Lemma waveform_lengths_are_not_validated_witness :
  process_level "levels/cx74.json" false
    (world_of "levels/cx74.json" short_wave_level)
  = (emit [Print "  cx74.json: Simulation error: list index out of range";
           PrintExc (IndexError "list index out of range")]
          (world_of "levels/cx74.json" short_wave_level),
     Ok false)
  ∧ tick_count (list_to_map [(1, "D"); (2, "CLK")]) []
               (level_waveforms short_wave_level) = 2%nat.
Proof.
  destruct (waveform_lengths_are_not_validated "levels/cx74.json" false
              (world_of "levels/cx74.json" short_wave_level)
              short_wave_level (mk_config sim_cx74 ["D"; "CLK"] ["Q"; "~Q"]
                 [("D", 1); ("CLK", 2); ("Q", 7); ("~Q", 8)] (Some 3) None)
              (list_to_map [("D", [0]); ("CLK", [0; 1])]) 2 [] 0)
    as (Hticks & _ & _ & Hraise & _).
  - reflexivity.
  - reflexivity.
  - reflexivity.
  - split; [|symmetry; exact Hticks].
    destruct (Hraise "list index out of range") as (Hpl & _);
      [reflexivity|exact Hpl].
Defined.

(** C7 as stated fails: in [long_wave_level] the waveform of A has 2
    samples and the others 1, yet nothing is reported about lengths and
    the run is not skipped: the output waveform is rewritten, the file is
    written and [process_level] returns [True]. *)
Lemma longer_waveform_is_not_detected :
  String.length "01" ≠ String.length "0"
  ∧ ∃ w', process_level "levels/cx04.json" false
            (world_of "levels/cx04.json" long_wave_level) = (w', Ok true)
          ∧ printed w' = [Print "  cx04.json: ~A (pin 7)";
                          Print "    old: ";
                          Print "    new: 1";
                          Print "    tst: ?"]
          ∧ (level_waveforms <$> files w' !! "levels/cx04.json")
            = Some [input_wave 1 "01"; input_wave 2 "0"; input_wave 3 "0";
                    input_wave 4 "0"; output_wave 7 "1" "?"].
Proof.
  split; [simpl; lia|]. eexists. split; [vm_compute; reflexivity|].
  split; reflexivity.
Qed.

(** C8: when the model raises (reading an input signal that was not
    given raises [KeyError] with the signal's name), [process_level] does
    not raise: it prints one line with the level file's name and the
    exception's text, and the traceback, returns [False] with no output
    waveform touched and no file changed, and the batch goes on with the
    next level. *)
Theorem simulation_fault_is_caught level_path dry_run w data config inputs
    n_ticks e rest count :
  files w !! level_path = Some data →
  LEVEL_CONFIG !! level_name data = Some config →
  collect_inputs (index_signals (cfg_pin_map config) (cfg_inputs config))
                 (level_pins data) (∅, 64%nat) (level_waveforms data)
  = Ok (inputs, n_ticks) →
  cfg_sim config inputs n_ticks = Raise e →
  let report := [Print ("  " +:+ path_name level_path
                        +:+ ": Simulation error: " +:+ exn_str e);
                 PrintExc e] in
  process_level level_path dry_run w = (emit report w, Ok false)
  ∧ files (emit report w) = files w
  ∧ printed (emit report w) = printed w ++ report
  ∧ process_all (level_path :: rest) dry_run count w
    = process_all rest dry_run count (emit report w)
  ∧ (∀ name t, inputs !! name = None →
       sample inputs name t = Raise (KeyError name)
       ∧ exn_str (KeyError name) = "'" +:+ name +:+ "'").
Proof.
  intros Hfile Hcfg Hin Hsim report.
  destruct (process_level_sim_raises level_path dry_run w data config
              inputs n_ticks e rest count) as [Hpl Hall]; try done.
  split; [done|]. split; [done|]. split; [done|]. split; [done|].
  intros name t Hnone. split; [|done].
  unfold sample, py_dict_getitem. by rewrite Hnone.
Qed.

Lemma simulation_fault_is_caught_witness :
  process_level "levels/cx04.json" true
    (world_of "levels/cx04.json" missing_input_level)
  = (emit [Print "  cx04.json: Simulation error: 'A'";
           PrintExc (KeyError "A")]
          (world_of "levels/cx04.json" missing_input_level),
     Ok false).
Proof.
  destruct (simulation_fault_is_caught "levels/cx04.json" true
              (world_of "levels/cx04.json" missing_input_level)
              missing_input_level
              (mk_config sim_cx04 ["A"; "B"; "C"; "D"]
                 ["~A"; "~B"; "~C"; "~D"]
                 [("A", 1); ("B", 2); ("C", 3); ("D", 4);
                  ("~A", 7); ("~B", 8); ("~C", 9); ("~D", 10)] None None)
              (list_to_map [("B", [0; 1]); ("C", [0; 1]); ("D", [0; 1])]) 2
              (KeyError "A") [] 0)
    as (Hpl & _).
  - reflexivity.
  - reflexivity.
  - reflexivity.
  - reflexivity.
  - exact Hpl.
Defined.

(** C9: a level naming a component that [LEVEL_CONFIG] does not have is
    reported by that name in one line, [process_level] returns [False]
    without raising and without changing any file, and the batch goes on
    with the next level. *)
Theorem unknown_component_is_skipped level_path dry_run w data rest count :
  files w !! level_path = Some data →
  LEVEL_CONFIG !! level_name data = None →
  let report := [Print ("  " +:+ path_name level_path +:+ ": No config for "
                        +:+ level_name data +:+ ", skipping")] in
  process_level level_path dry_run w = (emit report w, Ok false)
  ∧ files (emit report w) = files w
  ∧ printed (emit report w) = printed w ++ report
  ∧ process_all (level_path :: rest) dry_run count w
    = process_all rest dry_run count (emit report w).
Proof.
  intros Hfile Hcfg report.
  assert (process_level level_path dry_run w = (emit report w, Ok false))
    as Hpl.
  { unfold process_level. by rewrite Hfile, Hcfg. }
  split; [done|]. split; [done|]. split; [done|]. simpl. by rewrite Hpl.
Qed.

Lemma unknown_component_is_skipped_witness :
  process_level "levels/cx99.json" false
    (world_of "levels/cx99.json" unknown_level)
  = (emit [Print "  cx99.json: No config for CX99, skipping"]
          (world_of "levels/cx99.json" unknown_level),
     Ok false).
Proof.
  destruct (unknown_component_is_skipped "levels/cx99.json" false
              (world_of "levels/cx99.json" unknown_level) unknown_level
              [] 0) as (Hpl & _).
  - reflexivity.
  - reflexivity.
  - exact Hpl.
Defined.
